(** * Client-Risk-Dashboard: risk scoring and the approval workflow

    A shallow embedding of [src/utils/riskScoring.ts] (the scorer) and of the
    status-update handler of [components/Workflow/WorkflowManagement.tsx],
    followed by the properties of the specification that concern them; then
    the data the components derive from the scores ([App.tsx],
    [DashboardOverview.tsx], [RiskAssessment.tsx]) and further properties of
    the code.

    Numbers.  The scorer is embedded twice.

    [Binary64] is the scorer as it runs: a JavaScript [number] is an IEEE 754
    double, and [+], [-], [*], [/] are the binary64 operations of the
    primitive floats, with their rounding, their overflow, their signed zeros
    and their [NaN].  Comparisons, [Math.min], [Math.max] and [Math.round] go
    through [Binary64.view], the exact rational (or special value) a double
    stands for.  The properties of the thresholds between the levels, and the
    evaluations at which the program departs from its specification, are
    stated on this scorer.

    [JSNumber] and [RiskScoring] are the scorer on [num]: an exact rational, or
    one of the three special values [+Infinity], [-Infinity], [NaN].  The
    special values follow the IEEE rules the scorer can run into (division by
    zero, [0/0], comparisons with [NaN], [Math.min]/[Math.max]/[Math.round] on
    [NaN]); finite arithmetic is exact, so the rounding error of binary64 and
    the sign of zero are left out (a zero divisor is taken as [+0]).  The two
    scorers test the inputs alike, and agree wherever every intermediate value
    is a double; they can differ by one unit of the last place elsewhere
    ([binary64_rounding_at_breakpoint]).  The ranges and the monotonicity of
    the components are proved on the exact scorer. *)

From Stdlib Require Import ZArith QArith Qround List String Ascii Bool Lia Lqa Permutation.
From Stdlib Require Import Floats.
Import ListNotations.

Open Scope Q_scope.

(** ** JavaScript numbers *)
Module JSNumber.

Inductive num : Type :=
| Fin (q : Q)
| PInf
| NInf
| NaN.

(** Finite results are kept in lowest terms, so that equal values are equal terms. *)
Definition fin (q : Q) : num := Fin (Qred q).

Definition ofZ (z : Z) : num := Fin (inject_Z z).
Definition ofNat (n : nat) : num := ofZ (Z.of_nat n).

Definition qltb (x y : Q) : bool := negb (Qle_bool y x).

Definition isFinite (a : num) : bool :=
  match a with Fin _ => true | _ => false end.

(** [a + b] *)
Definition add (a b : num) : num :=
  match a, b with
  | NaN, _ | _, NaN => NaN
  | PInf, NInf | NInf, PInf => NaN
  | PInf, _ | _, PInf => PInf
  | NInf, _ | _, NInf => NInf
  | Fin x, Fin y => fin (x + y)
  end.

(** [a - b] *)
Definition sub (a b : num) : num :=
  match a, b with
  | NaN, _ | _, NaN => NaN
  | PInf, PInf | NInf, NInf => NaN
  | PInf, _ | _, NInf => PInf
  | NInf, _ | _, PInf => NInf
  | Fin x, Fin y => fin (x - y)
  end.

(** The infinity whose sign is that of [s * q], for a non-zero [q]. *)
Definition signedInf (positive : bool) (q : Q) : num :=
  if Qeq_bool q 0 then NaN
  else if Bool.eqb positive (qltb 0 q) then PInf else NInf.

(** [a * b] *)
Definition mul (a b : num) : num :=
  match a, b with
  | NaN, _ | _, NaN => NaN
  | Fin x, Fin y => fin (x * y)
  | PInf, Fin y | Fin y, PInf => signedInf true y
  | NInf, Fin y | Fin y, NInf => signedInf false y
  | PInf, PInf | NInf, NInf => PInf
  | PInf, NInf | NInf, PInf => NInf
  end.

(** [a / b]; a finite non-zero value over zero is an infinity, [0/0] is [NaN]. *)
Definition div (a b : num) : num :=
  match a, b with
  | NaN, _ | _, NaN => NaN
  | Fin x, Fin y =>
      if Qeq_bool y 0 then
        (if Qeq_bool x 0 then NaN else if qltb 0 x then PInf else NInf)
      else fin (x / y)
  | Fin _, (PInf | NInf) => Fin 0
  | (PInf | NInf), (PInf | NInf) => NaN
  | PInf, Fin y => if qltb y 0 then NInf else PInf
  | NInf, Fin y => if qltb y 0 then PInf else NInf
  end.

(** [a < b]; false as soon as one side is [NaN]. *)
Definition lt (a b : num) : bool :=
  match a, b with
  | NaN, _ | _, NaN => false
  | Fin x, Fin y => qltb x y
  | NInf, NInf | PInf, _ | _, NInf => false
  | NInf, _ | _, PInf => true
  end.

(** [a > b] *)
Definition gt (a b : num) : bool := lt b a.

(** [a <= b] *)
Definition le (a b : num) : bool :=
  match a, b with
  | NaN, _ | _, NaN => false
  | Fin x, Fin y => Qle_bool x y
  | NInf, _ | _, PInf => true
  | PInf, _ | _, NInf => false
  end.

(** [lo <= a && a <= hi], for integer bounds *)
Definition between (lo hi : Z) (a : num) : bool :=
  le (ofZ lo) a && le a (ofZ hi).

(** [a === b] on numbers *)
Definition strictEq (a b : num) : bool :=
  match a, b with
  | Fin x, Fin y => Qeq_bool x y
  | PInf, PInf | NInf, NInf => true
  | _, _ => false
  end.

(** [Math.min(a, b)] *)
Definition Math_min (a b : num) : num :=
  match a, b with
  | NaN, _ | _, NaN => NaN
  | _, _ => if lt b a then b else a
  end.

(** [Math.max(a, b)] *)
Definition Math_max (a b : num) : num :=
  match a, b with
  | NaN, _ | _, NaN => NaN
  | _, _ => if lt a b then b else a
  end.

(** [Math.round(a)]: the nearest integer, halves going up. *)
Definition Math_round (a : num) : num :=
  match a with
  | Fin x => ofZ (Qfloor (x + (1 # 2)))
  | _ => a
  end.

End JSNumber.

(** ** The scorer: [src/utils/riskScoring.ts] and [src/types/customer.ts] *)
Module RiskScoring.
Import JSNumber.

Open Scope string_scope.

Inductive Status : Type := Review | Approved | Rejected.

Inductive RiskLevel : Type := Low | Medium | High.

Record CustomerData : Type := mkCustomerData {
  customerId : string;
  name : string;
  monthlyIncome : num;
  monthlyExpenses : num;
  creditScore : num;
  outstandingLoans : num;
  loanRepaymentHistory : list num; (* 1 = paid, 0 = missed *)
  accountBalance : num;
  status : Status
}.

(** The [factors] object of a [RiskScore]; the fields carry the prefix [f_]
    because the scorer's local constants of the same names are definitions
    below. *)
Record Factors : Type := mkFactors {
  f_creditScoreImpact : num;
  f_repaymentHistoryImpact : num;
  f_loanToIncomeRatioImpact : num
}.

Record RiskScore : Type := mkRiskScore {
  rs_customerId : string;
  score : num;
  level : RiskLevel;
  factors : Factors
}.

(** [throw new Error(message)] *)
Inductive JSError : Type := Error (message : string).

Definition CREDIT_SCORE_WEIGHT : num := ofZ 40.
Definition REPAYMENT_HISTORY_WEIGHT : num := ofZ 30.
Definition LOAN_RATIO_WEIGHT : num := ofZ 30.
Definition DEFAULT_LOAN_PERIOD_MONTHS : num := ofZ 24.

Definition RISK_THRESHOLDS_LOW : num := ofZ 30.
Definition RISK_THRESHOLDS_MEDIUM : num := ofZ 60.

Definition minCreditScore : num := ofZ 300.
Definition maxCreditScore : num := ofZ 850.

(** 1. Credit Score Impact (40% of total) *)
Definition normalizedCreditScore (customer : CustomerData) : num :=
  Math_max (ofZ 0)
    (Math_min (ofZ 1)
       (div (sub maxCreditScore (creditScore customer))
            (sub maxCreditScore minCreditScore))).

Definition creditScoreImpact (customer : CustomerData) : num :=
  mul (normalizedCreditScore customer) CREDIT_SCORE_WEIGHT.

(** 2. Loan Repayment History Impact (30% of total) *)
Definition repaymentHistoryLength (customer : CustomerData) : nat :=
  List.length (loanRepaymentHistory customer).

Definition missedPayments (customer : CustomerData) : list num :=
  filter (fun payment => strictEq payment (ofZ 0)) (loanRepaymentHistory customer).

Definition repaymentHistoryImpact (customer : CustomerData) : num :=
  if Nat.eqb (repaymentHistoryLength customer) 0
  then div REPAYMENT_HISTORY_WEIGHT (ofZ 2) (* Neutral score if no history *)
  else mul (div (ofNat (List.length (missedPayments customer)))
                (ofNat (repaymentHistoryLength customer)))
           REPAYMENT_HISTORY_WEIGHT.

(** 3. Outstanding Loans vs Income Ratio Impact (30% of total) *)
Definition monthlyLoanBurden (customer : CustomerData) (loanPeriodMonths : num) : num :=
  div (outstandingLoans customer) loanPeriodMonths.

Definition loanToIncomeRatio (customer : CustomerData) (loanPeriodMonths : num) : num :=
  div (monthlyLoanBurden customer loanPeriodMonths) (monthlyIncome customer).

Definition normalizedRatio (customer : CustomerData) (loanPeriodMonths : num) : num :=
  Math_min (ofZ 1) (div (loanToIncomeRatio customer loanPeriodMonths) (Fin (1 # 2))).

Definition loanToIncomeRatioImpact (customer : CustomerData) (loanPeriodMonths : num) : num :=
  mul (normalizedRatio customer loanPeriodMonths) LOAN_RATIO_WEIGHT.

(** Total risk score, before rounding *)
Definition totalScore (customer : CustomerData) (loanPeriodMonths : num) : num :=
  add (add (creditScoreImpact customer) (repaymentHistoryImpact customer))
      (loanToIncomeRatioImpact customer loanPeriodMonths).

(** The [if]/[else if]/[else] that sets [riskLevel] from [totalScore]. *)
Definition riskLevel (total : num) : RiskLevel :=
  if lt total RISK_THRESHOLDS_LOW then Low
  else if lt total RISK_THRESHOLDS_MEDIUM then Medium
  else High.

Definition calculateRiskScore (customer : CustomerData) (loanPeriodMonths : num)
  : JSError + RiskScore :=
  (* Input validation *)
  if lt (creditScore customer) (ofZ 300) || gt (creditScore customer) (ofZ 850) then
    inl (Error "Credit score must be between 300 and 850")
  else if lt (monthlyIncome customer) (ofZ 0) then
    inl (Error "Monthly income cannot be negative")
  else if lt (outstandingLoans customer) (ofZ 0) then
    inl (Error "Outstanding loans cannot be negative")
  else
    inr {| rs_customerId := customerId customer;
           score := Math_round (totalScore customer loanPeriodMonths);
           level := riskLevel (totalScore customer loanPeriodMonths);
           factors :=
             {| f_creditScoreImpact := Math_round (creditScoreImpact customer);
                f_repaymentHistoryImpact := Math_round (repaymentHistoryImpact customer);
                f_loanToIncomeRatioImpact :=
                  Math_round (loanToIncomeRatioImpact customer loanPeriodMonths) |} |}.

(** [customers.map(customer => calculateRiskScore(customer))]: the callback runs
    on the elements in order with the default loan period, and the first
    exception it throws leaves [map], so no array is returned. *)
Fixpoint calculateAllRiskScores (customers : list CustomerData)
  : JSError + list RiskScore :=
  match customers with
  | [] => inr []
  | customer :: rest =>
      match calculateRiskScore customer DEFAULT_LOAN_PERIOD_MONTHS with
      | inl e => inl e
      | inr r =>
          match calculateAllRiskScores rest with
          | inl e => inl e
          | inr rs => inr (r :: rs)
          end
      end
  end.

(** The preconditions of the specification's scoring contract: real-valued
    fields, [creditScore] in [300, 850], [monthlyIncome >= 0],
    [outstandingLoans >= 0], [loanPeriodMonths > 0]. *)
Definition validProfile (customer : CustomerData) (loanPeriodMonths : num) : bool :=
  isFinite (creditScore customer)
  && le (ofZ 300) (creditScore customer) && le (creditScore customer) (ofZ 850)
  && isFinite (monthlyIncome customer) && le (ofZ 0) (monthlyIncome customer)
  && isFinite (outstandingLoans customer) && le (ofZ 0) (outstandingLoans customer)
  && isFinite loanPeriodMonths && lt (ofZ 0) loanPeriodMonths.

(** The three guards of [calculateRiskScore], in the order they are tested. *)
Definition creditScoreOutOfRange (customer : CustomerData) : bool :=
  lt (creditScore customer) (ofZ 300) || gt (creditScore customer) (ofZ 850).

Definition monthlyIncomeNegative (customer : CustomerData) : bool :=
  lt (monthlyIncome customer) (ofZ 0).

Definition outstandingLoansNegative (customer : CustomerData) : bool :=
  lt (outstandingLoans customer) (ofZ 0).

(** Two profiles that differ at most in the fields the scorer never reads:
    [name], [monthlyExpenses], [accountBalance] and [status]. *)
Definition sameScoringInputs (a b : CustomerData) : Prop :=
  customerId a = customerId b
  /\ monthlyIncome a = monthlyIncome b
  /\ outstandingLoans a = outstandingLoans b
  /\ creditScore a = creditScore b
  /\ loanRepaymentHistory a = loanRepaymentHistory b.

(** Two profiles that differ at most in [outstandingLoans]. *)
Definition sameExceptOutstandingLoans (a b : CustomerData) : Prop :=
  customerId a = customerId b
  /\ name a = name b
  /\ monthlyIncome a = monthlyIncome b
  /\ monthlyExpenses a = monthlyExpenses b
  /\ creditScore a = creditScore b
  /\ loanRepaymentHistory a = loanRepaymentHistory b
  /\ accountBalance a = accountBalance b
  /\ status a = status b.

(** A profile with integer fields, for the examples. *)
Definition profile (id : string) (income credit loans : Z) (history : list Z)
  : CustomerData :=
  {| customerId := id; name := id;
     monthlyIncome := ofZ income; monthlyExpenses := ofZ 0;
     creditScore := ofZ credit; outstandingLoans := ofZ loans;
     loanRepaymentHistory := map ofZ history;
     accountBalance := ofZ 0; status := Review |}.

(** The scenario of the specification: score 37, level [Medium]. *)
Definition scenario : CustomerData :=
  profile "C-scenario" 4000 620 24000 [1; 1; 0; 1; 1; 1]%Z.

(** No income and no loans: the loan ratio is [0 / 0]. *)
Definition noIncomeNoLoans : CustomerData := profile "C-zero" 0 850 0 [].

(** Total 29.765625: the score rounds to 30. *)
Definition justBelowThirty : CustomerData := profile "C-30" 256 850 1512 [].

(** Total 59.6875: the score rounds to 60. *)
Definition justBelowSixty : CustomerData := profile "C-60" 64 300 312 [0; 1; 1; 1]%Z.

(** Total 62.5: level [High], score 63. *)
Definition highAt63 : CustomerData := profile "C-63" 800 300 2400 [].

(** Total 85: level [High], score 85. *)
Definition highAt85 : CustomerData := profile "C-85" 100 300 2400 [].

(** A credit score below the bureau range. *)
Definition badCredit : CustomerData := profile "C-bad" 4000 200 24000 [].


Definition RiskLevel_eqb (a b : RiskLevel) : bool :=
  match a, b with
  | Low, Low | Medium, Medium | High, High => true
  | _, _ => false
  end.

(** The string a level is in the program: ['Low'], ['Medium'], ['High']. *)
Definition levelName (l : RiskLevel) : string :=
  match l with Low => "Low" | Medium => "Medium" | High => "High" end.

End RiskScoring.

(** ** The status-update handler of [WorkflowManagement] *)
Module Workflow.
Import JSNumber RiskScoring.

Open Scope string_scope.

(** The value the form passes to [onFinish]. *)
Record FormValues : Type := mkFormValues {
  v_status : Status;
  notes : string
}.

(** How the promise returned by the [updateCustomerStatus] prop settles. *)
Inductive Settled : Type :=
| Fulfilled (success : bool)
| RejectedWith (e : JSError).

(** What the handler does to the outside, in program order. *)
Inductive Event : Type :=
| CallUpdateCustomerStatus (id : string) (newStatus : Status)
| NotificationWarning_HighRiskAlert (customerName : string) (riskScore : num)
| ConsoleLog_AlertTriggered (id : string)
| NotificationSuccess_StatusUpdated (customerName : string) (newStatus : Status)
| FormResetFields
| SetIsModalVisible (visible : bool)
| NotificationError_UpdateFailed.

Definition Status_eqb (a b : Status) : bool :=
  match a, b with
  | Review, Review | Approved, Approved | Rejected, Rejected => true
  | _, _ => false
  end.

(** [useMemo(() => calculateAllRiskScores(customerData))] *)
Definition riskScores (customerData : list CustomerData) : JSError + list RiskScore :=
  calculateAllRiskScores customerData.

(** [riskScores.find(score => score.customerId === currentCustomer.customerId)] *)
Definition findCustomerRisk (scores : list RiskScore) (currentCustomer : CustomerData)
  : option RiskScore :=
  find (fun score => String.eqb (rs_customerId score) (customerId currentCustomer)) scores.

(** The events of one run of [handleUpdateStatus]; [scores] is the value of
    [riskScores] the component rendered with. *)
Definition handleUpdateStatus
    (updateCustomerStatus : string -> Status -> Settled)
    (scores : list RiskScore)
    (currentCustomer : option CustomerData)
    (values : FormValues) : list Event :=
  match currentCustomer with
  | None => []
  | Some current =>
      CallUpdateCustomerStatus (customerId current) (v_status values) ::
      match updateCustomerStatus (customerId current) (v_status values) with
      | Fulfilled true =>
          (* Check if the customer is high risk and status is Approved *)
          (match findCustomerRisk scores current with
           | Some customerRisk =>
               if gt (score customerRisk) (ofZ 70)
                  && Status_eqb (v_status values) Approved
               then [NotificationWarning_HighRiskAlert (name current) (score customerRisk);
                     ConsoleLog_AlertTriggered (customerId current)]
               else []
           | None => []
           end)
          ++ [NotificationSuccess_StatusUpdated (name current) (v_status values);
              FormResetFields;
              SetIsModalVisible false]
      | Fulfilled false => [NotificationError_UpdateFailed]
      | RejectedWith _ => [NotificationError_UpdateFailed]
      end
  end.

Definition isHighRiskAlert (e : Event) : bool :=
  match e with NotificationWarning_HighRiskAlert _ _ => true | _ => false end.

Definition isSuccessReport (e : Event) : bool :=
  match e with NotificationSuccess_StatusUpdated _ _ => true | _ => false end.

(** Number of high-risk alerts in a run. *)
Definition alertCount (trace : list Event) : nat :=
  List.length (filter isHighRiskAlert trace).

(** Number of high-risk alerts raised before success is first reported. *)
Fixpoint alertsBeforeSuccess (trace : list Event) : nat :=
  match trace with
  | [] => 0
  | e :: rest =>
      if isSuccessReport e then 0
      else (if isHighRiskAlert e then 1 else 0) + alertsBeforeSuccess rest
  end.

Definition reportsSuccess (trace : list Event) : bool :=
  existsb isSuccessReport trace.

(** An update prop whose promise always fulfils with [true]. *)
Definition updateSucceeds (_ : string) (_ : Status) : Settled := Fulfilled true.

(** [openStatusModal] sets [currentCustomer]; the form then shows the "High Risk
    Customer" warning when
    [currentCustomer && riskScores.find(score => score.customerId ===
    currentCustomer.customerId && score.level === 'High')] is truthy. *)
Definition showsHighRiskWarning (scores : list RiskScore)
    (currentCustomer : option CustomerData) : bool :=
  match currentCustomer with
  | None => false
  | Some current =>
      match find (fun score => String.eqb (rs_customerId score) (customerId current)
                               && RiskLevel_eqb (level score) High) scores with
      | Some _ => true
      | None => false
      end
  end.

(** [a || d] on numbers: [d] when [a] is falsy (0 or [NaN]). *)
Definition orElse (a d : num) : num :=
  match a with
  | NaN => d
  | Fin q => if Qeq_bool q 0 then d else a
  | _ => a
  end.

(** A row of the workflow table, [{...customer, riskScore, riskLevel}]; the
    fields carry the prefix [row_]. *)
Record CustomerWithRisk : Type := mkCustomerWithRisk {
  row_customer : CustomerData;
  row_riskScore : num;
  row_riskLevel : string
}.

(** [customersWithRisk]: every customer with the first score that carries its
    id; [risk?.score || 0] and [risk?.level || 'N/A']. *)
Definition customersWithRisk (customerData : list CustomerData)
    (scores : list RiskScore) : list CustomerWithRisk :=
  map (fun customer =>
         let risk := find (fun score =>
                             String.eqb (rs_customerId score) (customerId customer))
                          scores in
         {| row_customer := customer;
            row_riskScore := match risk with
                             | Some r => orElse (score r) (ofZ 0)
                             | None => ofZ 0
                             end;
            row_riskLevel := match risk with
                             | Some r => levelName (level r)
                             | None => "N/A"
                             end |})
      customerData.

(** The [status] of the Risk Score progress bar:
    [score > 70 ? "exception" : (score > 40 ? "normal" : "success")]. *)
Definition progressStatus (score : num) : string :=
  if gt score (ofZ 70) then "exception"
  else if gt score (ofZ 40) then "normal"
  else "success".

End Workflow.

(** ** [App]: the callback behind the [updateCustomerStatus] prop *)
Module App.
Import JSNumber RiskScoring Workflow.

(** How [updateCustomerStatus] of [utils/api.ts] settles: with [response.data],
    or with the error it rethrows. *)
Inductive ApiResult : Type :=
| Resolved (updatedCustomer : CustomerData)
| Thrown (e : JSError).

(** [handleUpdateStatus] of [App]: on success every customer of the state
    whose id is [customerId] is replaced by the customer the server sent and
    the result is [true]; on failure the state is left alone and the result
    is [false].  The pair is the next [customerData] and the returned value. *)
Definition handleUpdateStatus
    (updateCustomerStatus : string -> Status -> ApiResult)
    (customerData : list CustomerData)
    (id : string) (newStatus : Status) : list CustomerData * bool :=
  match updateCustomerStatus id newStatus with
  | Resolved updatedCustomer =>
      (map (fun customer =>
              if String.eqb (customerId customer) id then updatedCustomer else customer)
           customerData,
       true)
  | Thrown _ => (customerData, false)
  end.

(** The prop [WorkflowManagement] receives: the promise of an [async] function
    that catches its errors always fulfils. *)
Definition updateCustomerStatusProp
    (updateCustomerStatus : string -> Status -> ApiResult)
    (customerData : list CustomerData) (id : string) (newStatus : Status) : Settled :=
  Fulfilled (snd (handleUpdateStatus updateCustomerStatus customerData id newStatus)).

(** A server that answers with the stored customer, its status changed. *)
Definition setStatus (c : CustomerData) (newStatus : Status) : CustomerData :=
  {| customerId := customerId c; name := name c;
     monthlyIncome := monthlyIncome c; monthlyExpenses := monthlyExpenses c;
     creditScore := creditScore c; outstandingLoans := outstandingLoans c;
     loanRepaymentHistory := loanRepaymentHistory c;
     accountBalance := accountBalance c; status := newStatus |}.

End App.

(** ** [DashboardOverview] and [RiskAssessment]: the derived data *)
Module Dashboard.
Import JSNumber RiskScoring.

Open Scope string_scope.

(** [riskScores.filter(score => score.level === l).length] *)
Definition countLevel (l : RiskLevel) (scores : list RiskScore) : nat :=
  List.length (filter (fun score => RiskLevel_eqb (level score) l) scores).

(** [riskDistributionData] of the pie chart. *)
Definition riskDistributionData (scores : list RiskScore) : list (string * nat) :=
  [("Low Risk", countLevel Low scores);
   ("Medium Risk", countLevel Medium scores);
   ("High Risk", countLevel High scores)].

(** [riskChartData] of [RiskAssessment]: [riskLevels.map(level => ...)]. *)
Definition riskChartData (scores : list RiskScore) : list (string * nat) :=
  map (fun l => (levelName l, countLevel l scores)) [Low; Medium; High].

Record FinancialMetrics : Type := mkFinancialMetrics {
  totalCustomers : nat;
  averageIncome : num;
  averageExpenses : num;
  averageCreditScore : num;
  totalOutstandingLoans : num;
  highRiskCustomers : nat
}.

(** [customerData.reduce((sum, customer) => sum + field(customer), 0)] *)
Definition sumOf (field : CustomerData -> num) (customerData : list CustomerData) : num :=
  fold_left (fun sum customer => add sum (field customer)) customerData (ofZ 0).

(** [metrics] *)
Definition metrics (customerData : list CustomerData) (scores : list RiskScore)
  : FinancialMetrics :=
  let totalCustomers := List.length customerData in
  if Nat.eqb totalCustomers 0 then
    {| totalCustomers := 0; averageIncome := ofZ 0; averageExpenses := ofZ 0;
       averageCreditScore := ofZ 0; totalOutstandingLoans := ofZ 0;
       highRiskCustomers := 0 |}
  else
    let totalIncome := sumOf monthlyIncome customerData in
    let totalExpenses := sumOf monthlyExpenses customerData in
    let totalCreditScore := sumOf creditScore customerData in
    let outstandingLoans := sumOf outstandingLoans customerData in
    let highRiskCount := countLevel High scores in
    {| totalCustomers := totalCustomers;
       averageIncome := div totalIncome (ofNat totalCustomers);
       averageExpenses := div totalExpenses (ofNat totalCustomers);
       averageCreditScore := div totalCreditScore (ofNat totalCustomers);
       totalOutstandingLoans := outstandingLoans;
       highRiskCustomers := highRiskCount |}.

(** [s.split(' ')[0]]: the characters of [s] before its first space. *)
Fixpoint firstWord (s : string) : string :=
  match s with
  | EmptyString => EmptyString
  | String c rest =>
      if Ascii.eqb c " "%char then EmptyString else String c (firstWord rest)
  end.

(** An entry of [incomeExpenseData]. *)
Record IncomeExpenseData : Type := mkIncomeExpenseData {
  ie_name : string;
  income : num;
  expenses : num
}.

Definition incomeExpenseData (customerData : list CustomerData)
  : list IncomeExpenseData :=
  map (fun customer =>
         {| ie_name := firstWord (name customer);
            income := monthlyIncome customer;
            expenses := monthlyExpenses customer |})
      customerData.

(** The tags of the Repayment History column: [payment === 1 ? 'P' : 'M']. *)
Definition repaymentTags (customer : CustomerData) : list string :=
  map (fun payment => if strictEq payment (ofZ 1) then "P" else "M")
      (loanRepaymentHistory customer).

(** The number of "M" tags shown for a customer. *)
Definition missedTags (customer : CustomerData) : nat :=
  List.length (filter (String.eqb "M") (repaymentTags customer)).

(** The [levels] table of the Risk Level sorter, on the three levels. *)
Definition levels (l : RiskLevel) : Z :=
  match l with Low => 1 | Medium => 2 | High => 3 end.

End Dashboard.

(** ** The scorer on IEEE 754 doubles *)
Module Binary64.
Import JSNumber RiskScoring.

(** The number a double stands for: both zeros are 0, a finite double
    [(-1)^s * m * 2^e] is that rational. *)
Definition view (x : float) : num :=
  match Prim2SF x with
  | S754_zero _ => Fin 0
  | S754_infinity false => PInf
  | S754_infinity true => NInf
  | S754_nan => NaN
  | S754_finite s m e =>
      fin ((if s then - (1) else 1) * (inject_Z (Z.pos m) * Qpower 2 e))
  end.

Definition isNegativeZero (x : float) : bool :=
  match Prim2SF x with S754_zero true => true | _ => false end.

Definition isNaN (x : float) : bool :=
  match view x with NaN => true | _ => false end.

(** [a < b], [a > b], [a === b]: comparisons of the numbers the doubles stand
    for, false as soon as one side is [NaN]. *)
Definition lt (a b : float) : bool := JSNumber.lt (view a) (view b).
Definition gt (a b : float) : bool := lt b a.
Definition strictEq (a b : float) : bool := JSNumber.strictEq (view a) (view b).

(** [Math.min(a, b)] and [Math.max(a, b)]; [-0] counts as smaller than [+0]. *)
Definition Math_min (a b : float) : float :=
  if isNaN a || isNaN b then PrimFloat.nan
  else if lt b a then b
  else if lt a b then a
  else if isNegativeZero b then b else a.

Definition Math_max (a b : float) : float :=
  if isNaN a || isNaN b then PrimFloat.nan
  else if lt a b then b
  else if lt b a then a
  else if isNegativeZero a then b else a.

(** [Math.round(x)], given as the number the returned double stands for: the
    integer [floor(x + 1/2)], which is a double whenever [x] is one. *)
Definition Math_round (x : float) : num := JSNumber.Math_round (view x).

(** An array length as a double. *)
Definition ofNat (n : nat) : float :=
  PrimFloat.of_uint63 (Uint63.of_Z (Z.of_nat n)).

(** An integer literal as a double. *)
Definition ofZ (z : Z) : float :=
  if (z <? 0)%Z then PrimFloat.opp (PrimFloat.of_uint63 (Uint63.of_Z (- z)))
  else PrimFloat.of_uint63 (Uint63.of_Z z).

Record CustomerData : Type := mkCustomerData {
  customerId : string;
  name : string;
  monthlyIncome : float;
  monthlyExpenses : float;
  creditScore : float;
  outstandingLoans : float;
  loanRepaymentHistory : list float; (* 1 = paid, 0 = missed *)
  accountBalance : float;
  status : Status
}.

(** The same customer with every double replaced by the number it stands for. *)
Definition viewCustomer (c : CustomerData) : RiskScoring.CustomerData :=
  {| RiskScoring.customerId := customerId c;
     RiskScoring.name := name c;
     RiskScoring.monthlyIncome := view (monthlyIncome c);
     RiskScoring.monthlyExpenses := view (monthlyExpenses c);
     RiskScoring.creditScore := view (creditScore c);
     RiskScoring.outstandingLoans := view (outstandingLoans c);
     RiskScoring.loanRepaymentHistory := map view (loanRepaymentHistory c);
     RiskScoring.accountBalance := view (accountBalance c);
     RiskScoring.status := status c |}.

Definition CREDIT_SCORE_WEIGHT : float := 40%float.
Definition REPAYMENT_HISTORY_WEIGHT : float := 30%float.
Definition LOAN_RATIO_WEIGHT : float := 30%float.
Definition DEFAULT_LOAN_PERIOD_MONTHS : float := 24%float.

Definition RISK_THRESHOLDS_LOW : float := 30%float.
Definition RISK_THRESHOLDS_MEDIUM : float := 60%float.

Definition minCreditScore : float := 300%float.
Definition maxCreditScore : float := 850%float.

(** 1. Credit Score Impact (40% of total) *)
Definition normalizedCreditScore (customer : CustomerData) : float :=
  Math_max 0%float
    (Math_min 1%float
       ((maxCreditScore - creditScore customer) / (maxCreditScore - minCreditScore))%float).

Definition creditScoreImpact (customer : CustomerData) : float :=
  (normalizedCreditScore customer * CREDIT_SCORE_WEIGHT)%float.

(** 2. Loan Repayment History Impact (30% of total) *)
Definition repaymentHistoryLength (customer : CustomerData) : nat :=
  List.length (loanRepaymentHistory customer).

Definition missedPayments (customer : CustomerData) : list float :=
  filter (fun payment => strictEq payment 0%float) (loanRepaymentHistory customer).

Definition repaymentHistoryImpact (customer : CustomerData) : float :=
  if Nat.eqb (repaymentHistoryLength customer) 0
  then (REPAYMENT_HISTORY_WEIGHT / 2)%float (* Neutral score if no history *)
  else (ofNat (List.length (missedPayments customer))
        / ofNat (repaymentHistoryLength customer)
        * REPAYMENT_HISTORY_WEIGHT)%float.

(** 3. Outstanding Loans vs Income Ratio Impact (30% of total) *)
Definition monthlyLoanBurden (customer : CustomerData) (loanPeriodMonths : float)
  : float :=
  (outstandingLoans customer / loanPeriodMonths)%float.

Definition loanToIncomeRatio (customer : CustomerData) (loanPeriodMonths : float)
  : float :=
  (monthlyLoanBurden customer loanPeriodMonths / monthlyIncome customer)%float.

Definition normalizedRatio (customer : CustomerData) (loanPeriodMonths : float)
  : float :=
  Math_min 1%float (loanToIncomeRatio customer loanPeriodMonths / 0.5)%float.

Definition loanToIncomeRatioImpact (customer : CustomerData) (loanPeriodMonths : float)
  : float :=
  (normalizedRatio customer loanPeriodMonths * LOAN_RATIO_WEIGHT)%float.

(** Total risk score, before rounding *)
Definition totalScore (customer : CustomerData) (loanPeriodMonths : float) : float :=
  (creditScoreImpact customer + repaymentHistoryImpact customer
   + loanToIncomeRatioImpact customer loanPeriodMonths)%float.

(** The [if]/[else if]/[else] that sets [riskLevel] from [totalScore]. *)
Definition riskLevel (total : float) : RiskLevel :=
  if lt total RISK_THRESHOLDS_LOW then Low
  else if lt total RISK_THRESHOLDS_MEDIUM then Medium
  else High.

Definition calculateRiskScore (customer : CustomerData) (loanPeriodMonths : float)
  : JSError + RiskScore :=
  (* Input validation *)
  if lt (creditScore customer) 300%float || gt (creditScore customer) 850%float then
    inl (Error "Credit score must be between 300 and 850")
  else if lt (monthlyIncome customer) 0%float then
    inl (Error "Monthly income cannot be negative")
  else if lt (outstandingLoans customer) 0%float then
    inl (Error "Outstanding loans cannot be negative")
  else
    inr {| rs_customerId := customerId customer;
           score := Math_round (totalScore customer loanPeriodMonths);
           level := riskLevel (totalScore customer loanPeriodMonths);
           factors :=
             {| f_creditScoreImpact := Math_round (creditScoreImpact customer);
                f_repaymentHistoryImpact := Math_round (repaymentHistoryImpact customer);
                f_loanToIncomeRatioImpact :=
                  Math_round (loanToIncomeRatioImpact customer loanPeriodMonths) |} |}.

(** [customers.map(customer => calculateRiskScore(customer))] *)
Fixpoint calculateAllRiskScores (customers : list CustomerData)
  : JSError + list RiskScore :=
  match customers with
  | [] => inr []
  | customer :: rest =>
      match calculateRiskScore customer DEFAULT_LOAN_PERIOD_MONTHS with
      | inl e => inl e
      | inr r =>
          match calculateAllRiskScores rest with
          | inl e => inl e
          | inr rs => inr (r :: rs)
          end
      end
  end.

(** A profile with integer fields, for the examples. *)
Definition profile (id : string) (income credit loans : Z) (history : list Z)
  : CustomerData :=
  {| customerId := id; name := id;
     monthlyIncome := ofZ income; monthlyExpenses := ofZ 0;
     creditScore := ofZ credit; outstandingLoans := ofZ loans;
     loanRepaymentHistory := map ofZ history;
     accountBalance := ofZ 0; status := Review |}.

(** Total 29.765625: the score rounds to 30. *)
Definition justBelowThirty : CustomerData := profile "C-30" 256 850 1512 [].

(** Total 59.6875: the score rounds to 60. *)
Definition justBelowSixty : CustomerData := profile "C-60" 64 300 312 [0; 1; 1; 1]%Z.

(** Total 62.5: level [High], score 63. *)
Definition highAt63 : CustomerData := profile "C-63" 800 300 2400 [].

(** No income and no loans: the loan ratio is [0 / 0]. *)
Definition noIncomeNoLoans : CustomerData := profile "C-zero" 0 850 0 [].

(** Credit 850, income 550, loans 5500, one miss in six: the total is 30 on
    the rationals and 29.999999999999996 on doubles. *)
Definition roundedBelowThirty : CustomerData :=
  profile "C-r30" 550 850 5500 [0; 1; 1; 1; 1; 1]%Z.

(** Credit 850, income 1100, loans 5500, no miss: the total is 12.5 on the
    rationals and 12.499999999999998 on doubles. *)
Definition roundedBelowHalf : CustomerData :=
  profile "C-r12" 1100 850 5500 [1; 1; 1; 1; 1; 1]%Z.

(** A credit score that is [NaN] (income 800, loans 2400, no history). *)
Definition nanCredit : CustomerData :=
  {| customerId := "C-nan"; name := "C-nan";
     monthlyIncome := ofZ 800; monthlyExpenses := ofZ 0;
     creditScore := PrimFloat.nan; outstandingLoans := ofZ 2400;
     loanRepaymentHistory := [];
     accountBalance := ofZ 0; status := Review |}.

(** The profile of the specification's scenario: credit 620, income 4000,
    loans 24000, one miss in six. *)
Definition scenario : CustomerData :=
  profile "C-scenario" 4000 620 24000 [1; 1; 0; 1; 1; 1]%Z.

End Binary64.

(** * Properties *)

(** ** Facts on JavaScript numbers *)
Module JSNumberFacts.
Import JSNumber.

Lemma qltb_true (x y : Q) : qltb x y = true <-> x < y.
Proof.
  unfold qltb. rewrite negb_true_iff. split; intro H.
  - apply Qnot_le_lt. intro Hle. apply Qle_bool_iff in Hle. congruence.
  - destruct (Qle_bool y x) eqn:E; [|reflexivity].
    apply Qle_bool_iff in E. lra.
Qed.

Lemma qltb_false (x y : Q) : qltb x y = false <-> y <= x.
Proof.
  unfold qltb. rewrite negb_false_iff. apply Qle_bool_iff.
Qed.

Lemma Qfloor_lt_iff (x : Q) (k : Z) : (Qfloor x < k)%Z <-> x < inject_Z k.
Proof.
  split; intro H.
  - apply Qlt_le_trans with (inject_Z (Qfloor x + 1)); [apply Qlt_floor|].
    rewrite <- Zle_Qle. lia.
  - destruct (Z_lt_ge_dec (Qfloor x) k) as [Hlt|Hge]; [exact Hlt|exfalso].
    apply Z.ge_le in Hge. rewrite Zle_Qle in Hge.
    pose proof (Qfloor_le x). lra.
Qed.

Lemma Qfloor_le_iff (x : Q) (k : Z) : (k <= Qfloor x)%Z <-> inject_Z k <= x.
Proof.
  split; intro H.
  - rewrite Zle_Qle in H. pose proof (Qfloor_le x). lra.
  - destruct (Z_lt_ge_dec (Qfloor x) k) as [Hlt|Hge]; [exfalso|lia].
    apply Qfloor_lt_iff in Hlt. lra.
Qed.

Lemma lt_Fin (x y : Q) : lt (Fin x) (Fin y) = true <-> x < y.
Proof. apply qltb_true. Qed.

Lemma le_Fin (x y : Q) : le (Fin x) (Fin y) = true <-> x <= y.
Proof. apply Qle_bool_iff. Qed.

Lemma le_fin (x y : Q) : le (fin x) (fin y) = true <-> x <= y.
Proof. unfold fin. rewrite le_Fin. apply Qred_le. Qed.

Lemma lt_le (a b : num) : lt a b = true -> le a b = true.
Proof.
  destruct a, b; simpl; try congruence.
  rewrite qltb_true, Qle_bool_iff. lra.
Qed.

Lemma le_lt_false (a b : num) : le a b = true -> lt b a = false.
Proof.
  destruct a, b; simpl; try congruence.
  rewrite qltb_false, Qle_bool_iff. tauto.
Qed.

Lemma le_trans (a b c : num) : le a b = true -> le b c = true -> le a c = true.
Proof.
  destruct a, b, c; simpl; try congruence.
  rewrite !Qle_bool_iff. lra.
Qed.


Lemma int_lt_round (t : num) (k : Z) :
  lt (ofZ k) (Math_round t) = true -> lt (ofZ k) t = true.
Proof.
  destruct t as [q| | |]; cbn [Math_round lt ofZ]; try congruence.
  rewrite !qltb_true, <- Zlt_Qlt. intro H.
  assert (Hk : (k + 1 <= Qfloor (q + (1 # 2)))%Z) by lia.
  apply Qfloor_le_iff in Hk. rewrite inject_Z_plus in Hk.
  change (inject_Z 1) with 1 in Hk. lra.
Qed.

Lemma round_mono (a b : num) :
  le a b = true -> le (Math_round a) (Math_round b) = true.
Proof.
  destruct a as [x| | |], b as [y| | |]; cbn [Math_round le ofZ]; try congruence.
  rewrite !Qle_bool_iff, <- Zle_Qle. intro H.
  apply Qfloor_resp_le. lra.
Qed.

Lemma round_between (lo hi : Z) (a : num) :
  between lo hi a = true ->
  between lo hi (Math_round a) = true.
Proof.
  unfold between. rewrite !andb_true_iff.
  destruct a as [q| | |]; cbn [Math_round le ofZ]; try tauto.
  rewrite !Qle_bool_iff, <- !Zle_Qle. intros [Hlo Hhi]. split.
  - apply Qfloor_le_iff. lra.
  - assert (H : (Qfloor (q + (1 # 2)) < hi + 1)%Z); [|lia].
    apply Qfloor_lt_iff. rewrite inject_Z_plus.
    change (inject_Z 1) with 1. lra.
Qed.

End JSNumberFacts.

Import JSNumber RiskScoring Workflow JSNumberFacts.

(** ** The scorer on the specification's examples *)

(** Credit 620, income 4000, loans 24000, history [1,1,0,1,1,1], 24 months:
    total 404/11 = 36.7..., score 37, level Medium. *)
Example scenario_score :
  totalScore scenario DEFAULT_LOAN_PERIOD_MONTHS = Fin (404 # 11)
  /\ calculateRiskScore scenario DEFAULT_LOAN_PERIOD_MONTHS =
       inr {| rs_customerId := "C-scenario"; score := ofZ 37; level := Medium;
              factors := {| f_creditScoreImpact := ofZ 17;
                            f_repaymentHistoryImpact := ofZ 5;
                            f_loanToIncomeRatioImpact := ofZ 15 |} |}.
Proof. split; vm_compute; reflexivity. Qed.

(** An all-missed history weighs 30, an all-paid one 0. *)
Example history_extremes :
  repaymentHistoryImpact (profile "C" 4000 620 24000 [0; 0; 0; 0; 0; 0]%Z) = ofZ 30
  /\ repaymentHistoryImpact (profile "C" 4000 620 24000 [1; 1; 1; 1; 1; 1]%Z) = ofZ 0.
Proof. split; vm_compute; reflexivity. Qed.

(** The level at totals 29, 30, 59 and 60. *)
Example riskLevel_boundaries :
  riskLevel (ofZ 29) = Low /\ riskLevel (ofZ 30) = Medium
  /\ riskLevel (ofZ 59) = Medium /\ riskLevel (ofZ 60) = High
  /\ riskLevel NaN = High.
Proof. repeat split. Qed.

(** Division by zero and [NaN] as JavaScript has them. *)
Example division_by_zero :
  div (ofZ 0) (ofZ 0) = NaN /\ div (ofZ 100) (ofZ 0) = PInf
  /\ Math_min (ofZ 1) PInf = ofZ 1 /\ Math_min (ofZ 1) NaN = NaN
  /\ lt NaN (ofZ 30) = false /\ Math_round NaN = NaN
  /\ Math_round (Fin (5 # 2)) = ofZ 3 /\ Math_round (Fin (-15 # 2)) = ofZ (-7).
Proof. repeat split. Qed.

(** ** Validation *)
Section Validation.

Variable customer : CustomerData.
Variable loanPeriodMonths : num.

Lemma validProfile_guards :
  validProfile customer loanPeriodMonths = true ->
  creditScoreOutOfRange customer = false
  /\ monthlyIncomeNegative customer = false
  /\ outstandingLoansNegative customer = false.
Proof.
  unfold validProfile, creditScoreOutOfRange, monthlyIncomeNegative,
    outstandingLoansNegative, gt.
  rewrite !andb_true_iff, orb_false_iff.
  intros [[[[[[[[_ H1] H2] _] H3] _] H4] _] _].
  auto using le_lt_false.
Qed.

Lemma guards_pass_returns :
  creditScoreOutOfRange customer = false ->
  monthlyIncomeNegative customer = false ->
  outstandingLoansNegative customer = false ->
  calculateRiskScore customer loanPeriodMonths =
    inr {| rs_customerId := customerId customer;
           score := Math_round (totalScore customer loanPeriodMonths);
           level := riskLevel (totalScore customer loanPeriodMonths);
           factors :=
             {| f_creditScoreImpact := Math_round (creditScoreImpact customer);
                f_repaymentHistoryImpact := Math_round (repaymentHistoryImpact customer);
                f_loanToIncomeRatioImpact :=
                  Math_round (loanToIncomeRatioImpact customer loanPeriodMonths) |} |}.
Proof.
  unfold calculateRiskScore, creditScoreOutOfRange, monthlyIncomeNegative,
    outstandingLoansNegative.
  intros -> -> ->. reflexivity.
Qed.

(** Whatever [calculateRiskScore] returns is built from the un-rounded
    components in the one way the source builds it. *)
Lemma calculateRiskScore_inr (r : RiskScore) :
  calculateRiskScore customer loanPeriodMonths = inr r ->
  rs_customerId r = customerId customer
  /\ score r = Math_round (totalScore customer loanPeriodMonths)
  /\ level r = riskLevel (totalScore customer loanPeriodMonths)
  /\ f_creditScoreImpact (factors r) = Math_round (creditScoreImpact customer)
  /\ f_repaymentHistoryImpact (factors r) = Math_round (repaymentHistoryImpact customer)
  /\ f_loanToIncomeRatioImpact (factors r) =
       Math_round (loanToIncomeRatioImpact customer loanPeriodMonths).
Proof.
  unfold calculateRiskScore.
  destruct (_ || _); [discriminate|].
  destruct (lt (monthlyIncome customer) _); [discriminate|].
  destruct (lt (outstandingLoans customer) _); [discriminate|].
  intros [= <-]. cbn. repeat split.
Qed.

Lemma validProfile_returns :
  validProfile customer loanPeriodMonths = true ->
  exists r, calculateRiskScore customer loanPeriodMonths = inr r.
Proof.
  intros Hv. destruct (validProfile_guards Hv) as (H1 & H2 & H3).
  rewrite (guards_pass_returns H1 H2 H3). eauto.
Qed.

End Validation.

(** C5, as the code has it.  [calculateRiskScore] makes three tests in order
    and throws an [Error] whose message names the offending field:
    [creditScore < 300 || creditScore > 850], then [monthlyIncome < 0], then
    [outstandingLoans < 0].  Whenever one of the three tests is true the call
    throws and returns no [RiskScore]. *)
Theorem calculateRiskScore_validates_three_fields :
  forall (customer : CustomerData) (loanPeriodMonths : num),
    (lt (creditScore customer) (ofZ 300) = true
     \/ gt (creditScore customer) (ofZ 850) = true ->
     calculateRiskScore customer loanPeriodMonths =
       inl (Error "Credit score must be between 300 and 850"))
    /\ (creditScoreOutOfRange customer = false ->
        lt (monthlyIncome customer) (ofZ 0) = true ->
        calculateRiskScore customer loanPeriodMonths =
          inl (Error "Monthly income cannot be negative"))
    /\ (creditScoreOutOfRange customer = false ->
        monthlyIncomeNegative customer = false ->
        lt (outstandingLoans customer) (ofZ 0) = true ->
        calculateRiskScore customer loanPeriodMonths =
          inl (Error "Outstanding loans cannot be negative"))
    /\ (creditScoreOutOfRange customer = true
        \/ monthlyIncomeNegative customer = true
        \/ outstandingLoansNegative customer = true ->
        exists e, calculateRiskScore customer loanPeriodMonths = inl e).
Proof.
  intros customer p.
  unfold calculateRiskScore, creditScoreOutOfRange, monthlyIncomeNegative,
    outstandingLoansNegative.
  split; [|split; [|split]].
  - intros H. apply orb_true_iff in H. rewrite H. reflexivity.
  - intros -> ->. reflexivity.
  - intros -> -> ->. reflexivity.
  - intros H.
    destruct (_ || _); [eauto|].
    destruct (lt (monthlyIncome customer) _); [eauto|].
    destruct (lt (outstandingLoans customer) _); [eauto|].
    destruct H as [H|[H|H]]; discriminate H.
Qed.

Lemma calculateRiskScore_validates_three_fields_witness :
  calculateRiskScore badCredit DEFAULT_LOAN_PERIOD_MONTHS =
    inl (Error "Credit score must be between 300 and 850")
  /\ exists e, calculateRiskScore badCredit DEFAULT_LOAN_PERIOD_MONTHS = inl e.
Proof.
  split.
  - apply (calculateRiskScore_validates_three_fields badCredit DEFAULT_LOAN_PERIOD_MONTHS).
    left. reflexivity.
  - apply (calculateRiskScore_validates_three_fields badCredit DEFAULT_LOAN_PERIOD_MONTHS).
    left. reflexivity.
Defined.

(** C5 as stated fails: a non-positive [loanPeriodMonths] is not rejected.  With
    a 0-month or a -24-month period the scorer returns a [RiskScore]; in the
    second case the loan factor is -7.  Nor is every credit score outside
    [300, 850] rejected: [NaN] is neither below 300 nor above 850, and the
    scorer returns a [RiskScore] whose score is [NaN]. *)
Lemma nonpositive_loan_period_is_scored :
  Binary64.calculateRiskScore Binary64.highAt63 0%float =
    inr {| rs_customerId := "C-63"; score := ofZ 85; level := High;
           factors := {| f_creditScoreImpact := ofZ 40;
                         f_repaymentHistoryImpact := ofZ 15;
                         f_loanToIncomeRatioImpact := ofZ 30 |} |}
  /\ Binary64.calculateRiskScore Binary64.highAt63 (-24)%float =
       inr {| rs_customerId := "C-63"; score := ofZ 48; level := Medium;
              factors := {| f_creditScoreImpact := ofZ 40;
                            f_repaymentHistoryImpact := ofZ 15;
                            f_loanToIncomeRatioImpact := ofZ (-7) |} |}
  /\ Binary64.calculateRiskScore Binary64.nanCredit Binary64.DEFAULT_LOAN_PERIOD_MONTHS =
       inr {| rs_customerId := "C-nan"; score := NaN; level := High;
              factors := {| f_creditScoreImpact := NaN;
                            f_repaymentHistoryImpact := ofZ 15;
                            f_loanToIncomeRatioImpact := ofZ 8 |} |}
  /\ lt (ofZ 0) (ofZ 0) = false /\ lt (ofZ 0) (ofZ (-24)) = false
  /\ calculateRiskScore highAt63 (ofZ 0) =
       inr {| rs_customerId := "C-63"; score := ofZ 85; level := High;
              factors := {| f_creditScoreImpact := ofZ 40;
                            f_repaymentHistoryImpact := ofZ 15;
                            f_loanToIncomeRatioImpact := ofZ 30 |} |}
  /\ calculateRiskScore highAt63 (ofZ (-24)) =
       inr {| rs_customerId := "C-63"; score := ofZ 48; level := Medium;
              factors := {| f_creditScoreImpact := ofZ 40;
                            f_repaymentHistoryImpact := ofZ 15;
                            f_loanToIncomeRatioImpact := ofZ (-7) |} |}.
Proof. repeat split; vm_compute; reflexivity. Qed.

(** ** Ranges and monotonicity of the arithmetic *)
Section Arithmetic.

Lemma between_Fin (lo hi : Z) (a : num) :
  between lo hi a = true <->
  exists q, a = Fin q /\ inject_Z lo <= q /\ q <= inject_Z hi.
Proof.
  unfold between. rewrite andb_true_iff. split.
  - destruct a as [q| | |]; cbn [le ofZ]; intros [H1 H2]; try discriminate.
    apply Qle_bool_iff in H1, H2. eauto.
  - intros (q & -> & H1 & H2). cbn [le ofZ]. rewrite !Qle_bool_iff. tauto.
Qed.

Lemma between_fin (lo hi : Z) (q : Q) :
  inject_Z lo <= q -> q <= inject_Z hi -> between lo hi (fin q) = true.
Proof.
  intros H1 H2. apply between_Fin. exists (Qred q).
  split; [reflexivity|]. rewrite Qred_correct. auto.
Qed.

Lemma div_Fin_nonzero (x y : Q) : ~ y == 0 -> div (Fin x) (Fin y) = fin (x / y).
Proof.
  intros Hy. cbn [div].
  destruct (Qeq_bool y 0) eqn:E; [|reflexivity].
  apply Qeq_bool_eq in E. contradiction.
Qed.

Lemma Qdiv_le_compat_r (x y z : Q) : 0 < z -> x <= y -> x / z <= y / z.
Proof.
  intros Hz Hxy. unfold Qdiv. apply Qmult_le_compat_r; [exact Hxy|].
  apply Qlt_le_weak, Qinv_lt_0_compat, Hz.
Qed.

Lemma Qdiv_nonneg (x z : Q) : 0 < z -> 0 <= x -> 0 <= x / z.
Proof.
  intros Hz Hx. apply Qle_shift_div_l; [exact Hz|]. lra.
Qed.

(** [Math.min(1, x)] and the clamp of the credit component. *)
Lemma Math_min_1_Fin (x : Q) :
  Math_min (ofZ 1) (Fin x) = Fin (if qltb x 1 then x else 1).
Proof.
  unfold Math_min, ofZ. cbn [lt]. change (inject_Z 1) with 1.
  destruct (qltb x 1); reflexivity.
Qed.

Lemma clamp_between (x : Q) :
  between 0 1 (Math_max (ofZ 0) (Math_min (ofZ 1) (Fin x))) = true.
Proof.
  rewrite Math_min_1_Fin. unfold Math_max, ofZ. cbn [lt].
  change (inject_Z 0) with 0.
  apply between_Fin. change (inject_Z 0) with 0. change (inject_Z 1) with 1.
  destruct (qltb x 1) eqn:E1.
  - apply qltb_true in E1. destruct (qltb 0 x) eqn:E0.
    + apply qltb_true in E0. exists x. repeat split; lra.
    + exists 0. repeat split; lra.
  - destruct (qltb 0 1) eqn:E0.
    + exists 1. repeat split; lra.
    + apply qltb_false in E0. lra.
Qed.


Lemma Math_min_1_between (x : Q) :
  0 <= x -> between 0 1 (Math_min (ofZ 1) (Fin x)) = true.
Proof.
  intros Hx. rewrite Math_min_1_Fin. apply between_Fin.
  change (inject_Z 0) with 0. change (inject_Z 1) with 1.
  destruct (qltb x 1) eqn:E1.
  - apply qltb_true in E1. exists x. repeat split; lra.
  - exists 1. repeat split; lra.
Qed.

Lemma Math_min_1_mono (x y : Q) :
  x <= y -> le (Math_min (ofZ 1) (Fin x)) (Math_min (ofZ 1) (Fin y)) = true.
Proof.
  intros Hxy. rewrite !Math_min_1_Fin. apply le_Fin.
  destruct (qltb x 1) eqn:Ex, (qltb y 1) eqn:Ey;
    rewrite ?qltb_true, ?qltb_false in *; lra.
Qed.

(** A share in [0, 1] times a weight [k >= 0] lies in [0, k]. *)
Lemma mul_weight_between (a : num) (k : Z) :
  (0 <= k)%Z -> between 0 1 a = true -> between 0 k (mul a (ofZ k)) = true.
Proof.
  intros Hk Ha. apply between_Fin in Ha. destruct Ha as (q & -> & H0 & H1).
  change (inject_Z 0) with 0 in H0. change (inject_Z 1) with 1 in H1.
  cbn [mul ofZ]. apply between_fin; change (inject_Z 0) with 0.
  - apply Qmult_le_0_compat; [exact H0|].
    change 0 with (inject_Z 0). rewrite <- Zle_Qle. exact Hk.
  - rewrite <- (Qmult_1_l (inject_Z k)) at 2.
    apply Qmult_le_compat_r; [exact H1|].
    change 0 with (inject_Z 0). rewrite <- Zle_Qle. exact Hk.
Qed.

Lemma mul_weight_mono (x y : Q) (k : Z) :
  (0 <= k)%Z -> x <= y -> le (mul (Fin x) (ofZ k)) (mul (Fin y) (ofZ k)) = true.
Proof.
  intros Hk Hxy. cbn [mul ofZ]. apply le_fin.
  apply Qmult_le_compat_r; [exact Hxy|].
  change 0 with (inject_Z 0). rewrite <- Zle_Qle. exact Hk.
Qed.

Lemma add_between (l1 h1 l2 h2 : Z) (a b : num) :
  between l1 h1 a = true -> between l2 h2 b = true ->
  between (l1 + l2) (h1 + h2) (add a b) = true.
Proof.
  intros Ha Hb. apply between_Fin in Ha, Hb.
  destruct Ha as (x & -> & Hx1 & Hx2). destruct Hb as (y & -> & Hy1 & Hy2).
  cbn [add]. apply between_fin; rewrite inject_Z_plus; lra.
Qed.

End Arithmetic.

(** ** Ranges of the components *)
Section Components.

Variable customer : CustomerData.
Variable loanPeriodMonths : num.

Lemma validProfile_Fin :
  validProfile customer loanPeriodMonths = true ->
  exists q i l m,
    creditScore customer = Fin q /\ monthlyIncome customer = Fin i
    /\ outstandingLoans customer = Fin l /\ loanPeriodMonths = Fin m
    /\ 300 <= q /\ q <= 850 /\ 0 <= i /\ 0 <= l /\ 0 < m.
Proof.
  unfold validProfile. rewrite !andb_true_iff.
  intros [[[[[[[[_ H1] H2] F2] H3] F3] H4] F4] H5].
  destruct (creditScore customer) as [q| | |]; try discriminate.
  destruct (monthlyIncome customer) as [i| | |]; try discriminate.
  destruct (outstandingLoans customer) as [l| | |]; try discriminate.
  destruct loanPeriodMonths as [m| | |] eqn:Em; try discriminate.
  apply le_Fin in H1, H2, H3, H4. apply lt_Fin in H5.
  exists q, i, l, m. tauto.
Qed.

Lemma creditScoreImpact_between :
  isFinite (creditScore customer) = true ->
  between 0 40 (creditScoreImpact customer) = true.
Proof.
  unfold creditScoreImpact, normalizedCreditScore, CREDIT_SCORE_WEIGHT.
  destruct (creditScore customer) as [q| | |]; try discriminate. intros _.
  change (sub maxCreditScore minCreditScore) with (Fin 550).
  cbn [sub maxCreditScore ofZ]. unfold fin.
  rewrite div_Fin_nonzero by (intro H; discriminate H).
  apply mul_weight_between; [lia|]. apply clamp_between.
Qed.

Lemma missedPayments_length :
  (List.length (missedPayments customer) <= repaymentHistoryLength customer)%nat.
Proof. apply filter_length_le. Qed.

Lemma repaymentHistoryImpact_between :
  between 0 30 (repaymentHistoryImpact customer) = true.
Proof.
  unfold repaymentHistoryImpact, REPAYMENT_HISTORY_WEIGHT.
  pose proof missedPayments_length as Hle.
  destruct (Nat.eqb_spec (repaymentHistoryLength customer) 0) as [_|Hn];
    [reflexivity|].
  set (n := repaymentHistoryLength customer) in *.
  set (k := List.length (missedPayments customer)) in *.
  assert (Hn0 : 0 < inject_Z (Z.of_nat n)).
  { change 0 with (inject_Z 0). rewrite <- Zlt_Qlt. lia. }
  assert (Hk0 : 0 <= inject_Z (Z.of_nat k)).
  { change 0 with (inject_Z 0). rewrite <- Zle_Qle. lia. }
  assert (Hkn : inject_Z (Z.of_nat k) <= inject_Z (Z.of_nat n)).
  { rewrite <- Zle_Qle. lia. }
  unfold ofNat, ofZ at 1 2. rewrite div_Fin_nonzero by lra.
  apply mul_weight_between; [lia|]. apply between_fin.
  - apply Qdiv_nonneg; assumption.
  - apply Qle_shift_div_r; [exact Hn0|]. change (inject_Z 1) with 1. lra.
Qed.

(** With a positive period and a positive income the loan component is
    [min(1, (loans / period / income) / 0.5) * 30] on the rationals. *)
Lemma loanToIncomeRatioImpact_Fin (l m i : Q) :
  outstandingLoans customer = Fin l -> loanPeriodMonths = Fin m ->
  monthlyIncome customer = Fin i -> 0 < m -> 0 < i ->
  exists z, z == l / m / i / (1 # 2)
    /\ loanToIncomeRatioImpact customer loanPeriodMonths =
         mul (Math_min (ofZ 1) (Fin z)) (ofZ 30).
Proof.
  intros Hl Hm Hi Hm0 Hi0.
  unfold loanToIncomeRatioImpact, normalizedRatio, loanToIncomeRatio,
    monthlyLoanBurden, LOAN_RATIO_WEIGHT.
  rewrite Hl, Hm, Hi.
  rewrite (div_Fin_nonzero l m) by lra. unfold fin at 1.
  rewrite (div_Fin_nonzero _ i) by lra. unfold fin at 1.
  rewrite (div_Fin_nonzero _ (1 # 2)) by (intro H; discriminate H). unfold fin at 1.
  eexists. split; [|reflexivity].
  rewrite !Qred_correct. reflexivity.
Qed.

Lemma loanToIncomeRatioImpact_between :
  validProfile customer loanPeriodMonths = true ->
  lt (ofZ 0) (monthlyIncome customer) = true ->
  between 0 30 (loanToIncomeRatioImpact customer loanPeriodMonths) = true.
Proof.
  intros Hv Hpos.
  destruct (validProfile_Fin Hv) as (q & i & l & m & Hq & Hi & Hl & Hm & _ & _ & _ & Hl0 & Hm0).
  rewrite Hi in Hpos. apply lt_Fin in Hpos. change (inject_Z 0) with 0 in Hpos.
  destruct (loanToIncomeRatioImpact_Fin l m i Hl Hm Hi Hm0 Hpos) as (z & Hz & ->).
  apply mul_weight_between; [lia|]. apply Math_min_1_between.
  rewrite Hz. repeat apply Qdiv_nonneg; try lra.
Qed.

(** X1.  The ranges of the specification, for a valid profile with a positive
    income: the returned score is an integer of [0, 100] and the factors lie
    in [0, 40], [0, 30] and [0, 30]. *)
Lemma positive_income_score_in_range :
  validProfile customer loanPeriodMonths = true ->
  lt (ofZ 0) (monthlyIncome customer) = true ->
  exists r, calculateRiskScore customer loanPeriodMonths = inr r
    /\ (exists z : Z, score r = ofZ z /\ (0 <= z <= 100)%Z)
    /\ between 0 40 (f_creditScoreImpact (factors r)) = true
    /\ between 0 30 (f_repaymentHistoryImpact (factors r)) = true
    /\ between 0 30 (f_loanToIncomeRatioImpact (factors r)) = true.
Proof.
  intros Hv Hpos.
  destruct (validProfile_returns _ _ Hv) as [r Hr]. exists r. split; [exact Hr|].
  destruct (calculateRiskScore_inr _ _ _ Hr) as (_ & Hs & _ & Hc & Hh & Hl).
  rewrite Hs, Hc, Hh, Hl. clear Hs Hc Hh Hl Hr r.
  assert (Bc : between 0 40 (creditScoreImpact customer) = true).
  { apply creditScoreImpact_between.
    destruct (validProfile_Fin Hv) as (q & _ & _ & _ & -> & _). reflexivity. }
  pose proof repaymentHistoryImpact_between as Bh.
  pose proof (loanToIncomeRatioImpact_between Hv Hpos) as Bl.
  assert (Bt : between 0 100 (totalScore customer loanPeriodMonths) = true).
  { unfold totalScore.
    apply (add_between (0 + 0) (40 + 30) 0 30); [|exact Bl].
    apply add_between; assumption. }
  repeat split; try (apply round_between; assumption).
  apply round_between in Bt. apply between_Fin in Bt.
  destruct Bt as (x & Hx & H0 & H100).
  destruct (totalScore customer loanPeriodMonths) as [t| | |]; try discriminate.
  cbn [Math_round ofZ] in *. injection Hx as <-.
  rewrite <- !Zle_Qle in *. eauto.
Qed.

End Components.

(** ** The three components *)

Lemma strictEq_ofZ (a : num) (z : Z) :
  strictEq a (ofZ z) = true -> exists q, a = Fin q /\ q == inject_Z z.
Proof.
  destruct a as [q| | |]; simpl; try discriminate.
  intros H. apply Qeq_bool_eq in H. eauto.
Qed.





(** C6.  For a valid profile with an empty [loanRepaymentHistory] the
    repayment component is exactly 15 before rounding (and so 15 in the
    returned [factors]): half of the weight 30, neither 0 nor 30. *)
Theorem empty_history_impact_is_15 :
  forall (customer : CustomerData) (loanPeriodMonths : num),
    validProfile customer loanPeriodMonths = true ->
    loanRepaymentHistory customer = [] ->
    repaymentHistoryImpact customer = ofZ 15
    /\ repaymentHistoryImpact customer = div REPAYMENT_HISTORY_WEIGHT (ofZ 2)
    /\ exists r, calculateRiskScore customer loanPeriodMonths = inr r
       /\ f_repaymentHistoryImpact (factors r) = ofZ 15.
Proof.
  intros customer p Hv He.
  assert (H15 : repaymentHistoryImpact customer = ofZ 15).
  { unfold repaymentHistoryImpact, repaymentHistoryLength. rewrite He. reflexivity. }
  split; [exact H15|]. split; [rewrite H15; reflexivity|].
  destruct (validProfile_returns _ _ Hv) as [r Hr]. exists r. split; [exact Hr|].
  destruct (calculateRiskScore_inr _ _ _ Hr) as (_ & _ & _ & _ & Hh & _).
  rewrite Hh, H15. reflexivity.
Qed.

Lemma empty_history_impact_is_15_witness :
  repaymentHistoryImpact highAt63 = ofZ 15
  /\ repaymentHistoryImpact highAt63 = div REPAYMENT_HISTORY_WEIGHT (ofZ 2)
  /\ exists r, calculateRiskScore highAt63 DEFAULT_LOAN_PERIOD_MONTHS = inr r
     /\ f_repaymentHistoryImpact (factors r) = ofZ 15.
Proof.
  apply (empty_history_impact_is_15 highAt63 DEFAULT_LOAN_PERIOD_MONTHS);
    reflexivity.
Defined.

(** C10.  Two inputs that agree on [customerId], [monthlyIncome],
    [outstandingLoans], [creditScore] and [loanRepaymentHistory], scored with
    the same [loanPeriodMonths], get the same result, whatever their [name],
    [monthlyExpenses], [accountBalance] and [status]: the same [RiskScore]
    (score, level and factors) or the same error.  The scorer is a function of
    its arguments only; it writes to no field of its input. *)
Theorem calculateRiskScore_noninterference :
  forall (a b : CustomerData) (loanPeriodMonths : num),
    sameScoringInputs a b ->
    calculateRiskScore a loanPeriodMonths = calculateRiskScore b loanPeriodMonths.
Proof.
  intros [ida na ia ea ca la ha ba sa] [idb nb ib eb cb lb hb bb sb] p
    (Hid & Hi & Hl & Hc & Hh).
  simpl in *. subst.
  reflexivity.
Qed.

Lemma calculateRiskScore_noninterference_witness :
  calculateRiskScore scenario DEFAULT_LOAN_PERIOD_MONTHS =
  calculateRiskScore
    {| customerId := "C-scenario"; name := "Another name";
       monthlyIncome := ofZ 4000; monthlyExpenses := ofZ 3999;
       creditScore := ofZ 620; outstandingLoans := ofZ 24000;
       loanRepaymentHistory := map ofZ [1; 1; 0; 1; 1; 1]%Z;
       accountBalance := ofZ (-5); status := Rejected |}
    DEFAULT_LOAN_PERIOD_MONTHS.
Proof.
  apply calculateRiskScore_noninterference.
  repeat split.
Defined.

(** ** Score and level *)

Lemma riskLevel_cases (total : num) :
  (lt total (ofZ 30) = true -> riskLevel total = Low)
  /\ (le (ofZ 30) total = true -> lt total (ofZ 60) = true -> riskLevel total = Medium)
  /\ (le (ofZ 60) total = true -> riskLevel total = High).
Proof.
  unfold riskLevel, RISK_THRESHOLDS_LOW, RISK_THRESHOLDS_MEDIUM.
  split; [|split].
  - intros ->. reflexivity.
  - intros H30 ->. rewrite (le_lt_false _ _ H30). reflexivity.
  - intros H60. rewrite (le_lt_false _ _ H60).
    assert (H30 : le (ofZ 30) total = true)
      by (apply le_trans with (ofZ 60); [reflexivity|exact H60]).
    rewrite (le_lt_false _ _ H30). reflexivity.
Qed.

(** *** The scorer on doubles, through the numbers the doubles stand for *)






(** The rounding of doubles at the breakpoint.  Credit 850, income 550, loans
    5500, one miss in six: the components are 0, 5 and 24.999999999999996, the
    total is 29.999999999999996 (30 on the rationals), so the level is Low and
    the score 30.  Credit 850, income 1100, loans 5500, no miss: the total is
    12.499999999999998 (12.5 on the rationals) and the score 12. *)
Example binary64_rounding_at_breakpoint :
  Binary64.totalScore Binary64.roundedBelowThirty Binary64.DEFAULT_LOAN_PERIOD_MONTHS
    = 0x1.dffffffffffffp+4%float
  /\ Binary64.lt
       (Binary64.totalScore Binary64.roundedBelowThirty
          Binary64.DEFAULT_LOAN_PERIOD_MONTHS) 30%float = true
  /\ Binary64.calculateRiskScore Binary64.roundedBelowThirty
       Binary64.DEFAULT_LOAN_PERIOD_MONTHS =
       inr {| rs_customerId := "C-r30"; score := ofZ 30; level := Low;
              factors := {| f_creditScoreImpact := ofZ 0;
                            f_repaymentHistoryImpact := ofZ 5;
                            f_loanToIncomeRatioImpact := ofZ 25 |} |}
  /\ totalScore (Binary64.viewCustomer Binary64.roundedBelowThirty)
       DEFAULT_LOAN_PERIOD_MONTHS = ofZ 30
  /\ Binary64.totalScore Binary64.roundedBelowHalf Binary64.DEFAULT_LOAN_PERIOD_MONTHS
     = 0x1.8ffffffffffffp+3%float
  /\ Binary64.calculateRiskScore Binary64.roundedBelowHalf
       Binary64.DEFAULT_LOAN_PERIOD_MONTHS =
       inr {| rs_customerId := "C-r12"; score := ofZ 12; level := Low;
              factors := {| f_creditScoreImpact := ofZ 0;
                            f_repaymentHistoryImpact := ofZ 0;
                            f_loanToIncomeRatioImpact := ofZ 12 |} |}.
Proof. repeat split; vm_compute; reflexivity. Qed.

(** ** A zero income *)

(** C2, at the failing input.  A profile with [monthlyIncome = 0] and
    [outstandingLoans = 0] (credit score 850, no history, 24 months) passes the
    three guards; the loan ratio is [0 / 0], and the call returns a [RiskScore]
    whose score and loan factor are [NaN], with level High. *)
Theorem zero_income_returns_NaN_score :
  strictEq (monthlyIncome noIncomeNoLoans) (ofZ 0) = true
  /\ calculateRiskScore noIncomeNoLoans DEFAULT_LOAN_PERIOD_MONTHS =
       inr {| rs_customerId := "C-zero"; score := NaN; level := High;
              factors := {| f_creditScoreImpact := ofZ 0;
                            f_repaymentHistoryImpact := ofZ 15;
                            f_loanToIncomeRatioImpact := NaN |} |}.
Proof. split; vm_compute; reflexivity. Qed.

(** On doubles the zero income may be [-0]: it passes [monthlyIncome < 0] as
    [+0] does, and with a loan the ratio is [-Infinity]; the call returns the
    score [-Infinity] with level Low. *)
Example binary64_negative_zero_income :
  Binary64.calculateRiskScore
    {| Binary64.customerId := "C-negzero"; Binary64.name := "C-negzero";
       Binary64.monthlyIncome := (-0)%float; Binary64.monthlyExpenses := 0%float;
       Binary64.creditScore := 300%float; Binary64.outstandingLoans := 2400%float;
       Binary64.loanRepaymentHistory := [];
       Binary64.accountBalance := 0%float; Binary64.status := Review |}
    Binary64.DEFAULT_LOAN_PERIOD_MONTHS =
    inr {| rs_customerId := "C-negzero"; score := NInf; level := Low;
           factors := {| f_creditScoreImpact := ofZ 40;
                         f_repaymentHistoryImpact := ofZ 15;
                         f_loanToIncomeRatioImpact := NInf |} |}.
Proof. vm_compute. reflexivity. Qed.

(** A zero income is never rejected: with the other fields valid the call
    returns a [RiskScore], whose loan factor (on the exact scorer, whose zero
    is [+0]) is [NaN] when there is no loan and 30 when there is one. *)
Lemma zero_income_is_scored (customer : CustomerData) (loanPeriodMonths : num) :
  validProfile customer loanPeriodMonths = true ->
  strictEq (monthlyIncome customer) (ofZ 0) = true ->
  exists r, calculateRiskScore customer loanPeriodMonths = inr r
    /\ f_loanToIncomeRatioImpact (factors r) =
         (if strictEq (outstandingLoans customer) (ofZ 0) then NaN else ofZ 30).
Proof.
  intros Hv Hz.
  destruct (validProfile_returns _ _ Hv) as [r Hr]. exists r. split; [exact Hr|].
  destruct (calculateRiskScore_inr _ _ _ Hr) as (_ & _ & _ & _ & _ & Hf).
  rewrite Hf. clear Hf Hr r.
  unfold validProfile in Hv. rewrite !andb_true_iff in Hv.
  destruct Hv as [[[[[[[[_ _] _] _] _] Hlf] Hl0] Hpf] Hp0].
  unfold loanToIncomeRatioImpact, normalizedRatio, loanToIncomeRatio, monthlyLoanBurden.
  destruct (strictEq_ofZ _ _ Hz) as (i & -> & Hi).
  destruct (outstandingLoans customer) as [l| | |]; try discriminate.
  destruct loanPeriodMonths as [m| | |]; try discriminate.
  apply lt_Fin in Hp0. apply le_Fin in Hl0.
  change (inject_Z 0) with 0 in *.
  cbn [div strictEq ofZ].
  assert (Hm : Qeq_bool m 0 = false).
  { destruct (Qeq_bool m 0) eqn:E; [|reflexivity]. apply Qeq_bool_eq in E. lra. }
  assert (Hi0 : Qeq_bool i 0 = true) by (apply Qeq_eq_bool; exact Hi).
  rewrite Hm. cbn [fin div]. rewrite Hi0.
  change (inject_Z 0) with 0.
  destruct (Qeq_bool l 0) eqn:El.
  - apply Qeq_bool_eq in El.
    assert (E0 : Qeq_bool (Qred (l / m)) 0 = true).
    { apply Qeq_eq_bool. rewrite Qred_correct, El. field. lra. }
    rewrite E0. reflexivity.
  - assert (Hlm : 0 < l / m).
    { apply Qeq_bool_neq in El. apply Qlt_shift_div_l; lra. }
    assert (E0 : Qeq_bool (Qred (l / m)) 0 = false).
    { destruct (Qeq_bool (Qred (l / m)) 0) eqn:E; [|reflexivity].
      apply Qeq_bool_eq in E. rewrite Qred_correct in E. lra. }
    assert (E1 : qltb 0 (Qred (l / m)) = true).
    { apply qltb_true. rewrite Qred_correct. exact Hlm. }
    rewrite E0, E1. reflexivity.
Qed.

(** C7, at the failing input.  The profile with no income and no loans is
    valid for the specification's preconditions, and the score and the loan
    factor returned for it are [NaN]: neither lies in its range. *)
Theorem zero_income_score_out_of_range :
  validProfile noIncomeNoLoans DEFAULT_LOAN_PERIOD_MONTHS = true
  /\ exists r, calculateRiskScore noIncomeNoLoans DEFAULT_LOAN_PERIOD_MONTHS = inr r
     /\ between 0 100 (score r) = false
     /\ between 0 30 (f_loanToIncomeRatioImpact (factors r)) = false.
Proof.
  split; [reflexivity|].
  eexists. split; [vm_compute; reflexivity|]. split; reflexivity.
Qed.

(** ** Monotonicity in the outstanding loans *)

(** C9.  For two valid profiles that differ at most in [outstandingLoans],
    with a positive [monthlyIncome] and the same [loanPeriodMonths], the one
    with the larger [outstandingLoans] has the larger or equal
    [loanToIncomeRatioImpact], before rounding and in the returned
    [factors]. *)
Theorem loanToIncomeRatioImpact_monotone :
  forall (a b : CustomerData) (loanPeriodMonths : num),
    sameExceptOutstandingLoans a b ->
    validProfile a loanPeriodMonths = true ->
    validProfile b loanPeriodMonths = true ->
    lt (ofZ 0) (monthlyIncome a) = true ->
    le (outstandingLoans a) (outstandingLoans b) = true ->
    le (loanToIncomeRatioImpact a loanPeriodMonths)
       (loanToIncomeRatioImpact b loanPeriodMonths) = true
    /\ exists ra rb,
         calculateRiskScore a loanPeriodMonths = inr ra
         /\ calculateRiskScore b loanPeriodMonths = inr rb
         /\ le (f_loanToIncomeRatioImpact (factors ra))
               (f_loanToIncomeRatioImpact (factors rb)) = true.
Proof.
  intros a b p (_ & _ & Hinc & _) Hva Hvb Hpos Hle.
  assert (Hmono : le (loanToIncomeRatioImpact a p) (loanToIncomeRatioImpact b p) = true).
  { destruct (validProfile_Fin _ _ Hva)
      as (qa & ia & la & m & _ & Hia & Hla & Hm & _ & _ & _ & _ & Hm0).
    destruct (validProfile_Fin _ _ Hvb)
      as (qb & ib & lb & m' & _ & Hib & Hlb & _ & _).
    rewrite Hia in Hpos. apply lt_Fin in Hpos. change (inject_Z 0) with 0 in Hpos.
    rewrite Hla, Hlb in Hle. apply le_Fin in Hle.
    rewrite Hinc in Hia.
    destruct (loanToIncomeRatioImpact_Fin a p la m ia Hla Hm) as (za & Hza & ->);
      [congruence|exact Hm0|exact Hpos|].
    destruct (loanToIncomeRatioImpact_Fin b p lb m ia Hlb Hm Hia Hm0 Hpos)
      as (zb & Hzb & ->).
    pose proof (Math_min_1_mono za zb) as Hmin.
    assert (Hz : za <= zb).
    { rewrite Hza, Hzb.
      repeat apply Qdiv_le_compat_r; try lra. }
    specialize (Hmin Hz).
    rewrite !Math_min_1_Fin in *. apply le_Fin in Hmin.
    apply mul_weight_mono; [lia|exact Hmin]. }
  split; [exact Hmono|].
  destruct (validProfile_returns _ _ Hva) as [ra Hra].
  destruct (validProfile_returns _ _ Hvb) as [rb Hrb].
  exists ra, rb. split; [exact Hra|]. split; [exact Hrb|].
  destruct (calculateRiskScore_inr _ _ _ Hra) as (_ & _ & _ & _ & _ & ->).
  destruct (calculateRiskScore_inr _ _ _ Hrb) as (_ & _ & _ & _ & _ & ->).
  apply round_mono. exact Hmono.
Qed.

Lemma loanToIncomeRatioImpact_monotone_witness :
  le (loanToIncomeRatioImpact (profile "C" 4000 620 24000 []) DEFAULT_LOAN_PERIOD_MONTHS)
     (loanToIncomeRatioImpact (profile "C" 4000 620 36000 []) DEFAULT_LOAN_PERIOD_MONTHS)
    = true.
Proof.
  apply (loanToIncomeRatioImpact_monotone
           (profile "C" 4000 620 24000 []) (profile "C" 4000 620 36000 [])
           DEFAULT_LOAN_PERIOD_MONTHS).
  - repeat split.
  - reflexivity.
  - reflexivity.
  - reflexivity.
  - reflexivity.
Defined.

(** ** Batch scoring *)

(** C4, as the code has it.  [calculateAllRiskScores] returns an array exactly
    when every profile is scored: it then holds one [RiskScore] per profile, in
    the same order, each the single-profile score of that profile with the
    default 24-month period.  When scoring some profile throws, the batch
    throws that error (the first one in order) and returns no score at all. *)
Theorem calculateAllRiskScores_all_or_nothing :
  forall customers : list CustomerData,
    (forall rs,
        calculateAllRiskScores customers = inr rs <->
        map (fun customer => calculateRiskScore customer DEFAULT_LOAN_PERIOD_MONTHS)
            customers = map inr rs)
    /\ (forall (before : list CustomerData) failing after e,
           customers = (before ++ failing :: after)%list ->
           (forall c, In c before ->
                      exists r, calculateRiskScore c DEFAULT_LOAN_PERIOD_MONTHS = inr r) ->
           calculateRiskScore failing DEFAULT_LOAN_PERIOD_MONTHS = inl e ->
           calculateAllRiskScores customers = inl e).
Proof.
  intros customers. split.
  - induction customers as [|c cs IH]; intros rs; cbn [calculateAllRiskScores map].
    + split; [intros [= <-]; reflexivity|].
      destruct rs; [reflexivity|discriminate].
    + destruct (calculateRiskScore c DEFAULT_LOAN_PERIOD_MONTHS) as [e|r] eqn:Hc.
      * split; [discriminate|]. destruct rs; discriminate.
      * destruct (calculateAllRiskScores cs) as [e|rs'] eqn:Hcs.
        -- split; [discriminate|].
           destruct rs as [|r0 rs0]; [discriminate|]. cbn [map].
           intros [= _ H]. apply IH in H. discriminate.
        -- split.
           ++ intros [= <-]. cbn [map]. f_equal. apply IH. reflexivity.
           ++ destruct rs as [|r0 rs0]; [discriminate|]. cbn [map].
              intros [= <- H]. apply IH in H. congruence.
  - intros before. revert customers.
    induction before as [|b bs IH]; intros customers failing after e -> Hok Hfail.
    + cbn. rewrite Hfail. reflexivity.
    + cbn [app calculateAllRiskScores].
      destruct (Hok b (or_introl eq_refl)) as [r ->].
      rewrite (IH _ failing after e eq_refl); [reflexivity| |exact Hfail].
      intros c Hc. apply Hok. right. exact Hc.
Qed.

Lemma calculateAllRiskScores_all_or_nothing_witness :
  calculateAllRiskScores [scenario; highAt63] =
    inr [ {| rs_customerId := "C-scenario"; score := ofZ 37; level := Medium;
             factors := {| f_creditScoreImpact := ofZ 17;
                           f_repaymentHistoryImpact := ofZ 5;
                           f_loanToIncomeRatioImpact := ofZ 15 |} |};
          {| rs_customerId := "C-63"; score := ofZ 63; level := High;
             factors := {| f_creditScoreImpact := ofZ 40;
                           f_repaymentHistoryImpact := ofZ 15;
                           f_loanToIncomeRatioImpact := ofZ 8 |} |} ]
  /\ calculateAllRiskScores [scenario; badCredit; highAt63] =
       inl (Error "Credit score must be between 300 and 850").
Proof.
  split.
  - apply (calculateAllRiskScores_all_or_nothing [scenario; highAt63]).
    vm_compute. reflexivity.
  - apply (proj2 (calculateAllRiskScores_all_or_nothing [scenario; badCredit; highAt63])
             [scenario] badCredit [highAt63]).
    + reflexivity.
    + intros c [<-|[]]. eexists. vm_compute. reflexivity.
    + reflexivity.
Defined.

(** C4 as stated fails: one profile that cannot be scored keeps every other
    profile of the batch from being scored.  [highAt63] alone is scored (63,
    High), yet a batch holding it next to a profile with credit score 200
    throws and returns no score, wherever the failing profile stands. *)
Lemma batch_aborts_on_one_failure :
  calculateRiskScore highAt63 DEFAULT_LOAN_PERIOD_MONTHS =
    inr {| rs_customerId := "C-63"; score := ofZ 63; level := High;
           factors := {| f_creditScoreImpact := ofZ 40;
                         f_repaymentHistoryImpact := ofZ 15;
                         f_loanToIncomeRatioImpact := ofZ 8 |} |}
  /\ calculateAllRiskScores [badCredit; highAt63] =
       inl (Error "Credit score must be between 300 and 850")
  /\ calculateAllRiskScores [highAt63; badCredit] =
       inl (Error "Credit score must be between 300 and 850").
Proof. repeat split; vm_compute; reflexivity. Qed.

(** ** The approval handler *)

Lemma calculateAllRiskScores_find :
  forall (customerData : list CustomerData) (scores : list RiskScore)
         (current : CustomerData),
    calculateAllRiskScores customerData = inr scores ->
    NoDup (map customerId customerData) ->
    In current customerData ->
    exists r, calculateRiskScore current DEFAULT_LOAN_PERIOD_MONTHS = inr r
              /\ findCustomerRisk scores current = Some r.
Proof.
  induction customerData as [|c cs IH]; intros scores current Hall Hnd Hin;
    [destruct Hin|].
  cbn [calculateAllRiskScores] in Hall.
  destruct (calculateRiskScore c DEFAULT_LOAN_PERIOD_MONTHS) as [e|r0] eqn:Hc;
    [discriminate|].
  destruct (calculateAllRiskScores cs) as [e|rs] eqn:Hcs; [discriminate|].
  injection Hall as <-.
  destruct (calculateRiskScore_inr _ _ _ Hc) as (Hid & _).
  cbn [map] in Hnd. inversion Hnd as [|x xs Hnotin Hnd' Heq]; subst.
  unfold findCustomerRisk. cbn [find]. rewrite Hid.
  destruct (String.eqb_spec (customerId c) (customerId current)) as [Heq|Hne].
  - destruct Hin as [<-|Hin]; [eauto|].
    exfalso. apply Hnotin. rewrite Heq. apply in_map. exact Hin.
  - destruct Hin as [<-|Hin]; [congruence|].
    apply (IH rs current eq_refl Hnd' Hin).
Qed.

Lemma score_above_70_is_High (customer : CustomerData) (p : num) (r : RiskScore) :
  calculateRiskScore customer p = inr r ->
  gt (score r) (ofZ 70) = true -> level r = High.
Proof.
  intros Hr Hgt. unfold gt in Hgt.
  destruct (calculateRiskScore_inr _ _ _ Hr) as (_ & Hs & -> & _).
  rewrite Hs in Hgt. apply int_lt_round, lt_le in Hgt.
  apply riskLevel_cases.
  apply le_trans with (ofZ 70); [reflexivity|exact Hgt].
Qed.

(** When the update is refused or fails, nothing is reported but the error. *)
Lemma failed_update_reports_no_success :
  forall updateCustomerStatus scores current values,
    updateCustomerStatus (customerId current) (v_status values) <> Fulfilled true ->
    handleUpdateStatus updateCustomerStatus scores (Some current) values =
      [CallUpdateCustomerStatus (customerId current) (v_status values);
       NotificationError_UpdateFailed].
Proof.
  intros upd scores current values Hne. cbn [handleUpdateStatus].
  destruct (upd (customerId current) (v_status values)) as [[|]|e];
    [congruence|reflexivity|reflexivity].
Qed.

(** C1, at the failing input.  The handler's comment reads "Check if the
    customer is high risk", and the form of the same component warns of a
    "High Risk Customer" on [level === 'High']; yet the handler raises the
    alert on [score > 70].  A customer with credit score 300, income 800,
    loans 2400 and no history is scored 62.5: level High, score 63.  The form
    shows the warning; the approval goes through and reports success, and no
    alert is raised.  The same happens to a High customer whose score is
    [NaN] (no income, no loans). *)
Theorem high_level_approved_without_alert :
  Binary64.calculateAllRiskScores [Binary64.highAt63] =
    inr [ {| rs_customerId := "C-63"; score := ofZ 63; level := High;
             factors := {| f_creditScoreImpact := ofZ 40;
                           f_repaymentHistoryImpact := ofZ 15;
                           f_loanToIncomeRatioImpact := ofZ 8 |} |} ]
  /\ showsHighRiskWarning
       [ {| rs_customerId := "C-63"; score := ofZ 63; level := High;
            factors := {| f_creditScoreImpact := ofZ 40;
                          f_repaymentHistoryImpact := ofZ 15;
                          f_loanToIncomeRatioImpact := ofZ 8 |} |} ]
       (Some (Binary64.viewCustomer Binary64.highAt63)) = true
  /\ handleUpdateStatus updateSucceeds
       [ {| rs_customerId := "C-63"; score := ofZ 63; level := High;
            factors := {| f_creditScoreImpact := ofZ 40;
                          f_repaymentHistoryImpact := ofZ 15;
                          f_loanToIncomeRatioImpact := ofZ 8 |} |} ]
       (Some (Binary64.viewCustomer Binary64.highAt63)) (mkFormValues Approved "") =
     [CallUpdateCustomerStatus "C-63" Approved;
      NotificationSuccess_StatusUpdated "C-63" Approved;
      FormResetFields; SetIsModalVisible false]
  /\ alertCount
       [CallUpdateCustomerStatus "C-63" Approved;
        NotificationSuccess_StatusUpdated "C-63" Approved;
        FormResetFields; SetIsModalVisible false] = 0%nat
  /\ reportsSuccess
       [CallUpdateCustomerStatus "C-63" Approved;
        NotificationSuccess_StatusUpdated "C-63" Approved;
        FormResetFields; SetIsModalVisible false] = true
  /\ Binary64.calculateAllRiskScores [Binary64.noIncomeNoLoans] =
       inr [ {| rs_customerId := "C-zero"; score := NaN; level := High;
                factors := {| f_creditScoreImpact := ofZ 0;
                              f_repaymentHistoryImpact := ofZ 15;
                              f_loanToIncomeRatioImpact := NaN |} |} ]
  /\ showsHighRiskWarning
       [ {| rs_customerId := "C-zero"; score := NaN; level := High;
            factors := {| f_creditScoreImpact := ofZ 0;
                          f_repaymentHistoryImpact := ofZ 15;
                          f_loanToIncomeRatioImpact := NaN |} |} ]
       (Some (Binary64.viewCustomer Binary64.noIncomeNoLoans)) = true
  /\ handleUpdateStatus updateSucceeds
       [ {| rs_customerId := "C-zero"; score := NaN; level := High;
            factors := {| f_creditScoreImpact := ofZ 0;
                          f_repaymentHistoryImpact := ofZ 15;
                          f_loanToIncomeRatioImpact := NaN |} |} ]
       (Some (Binary64.viewCustomer Binary64.noIncomeNoLoans))
       (mkFormValues Approved "") =
     [CallUpdateCustomerStatus "C-zero" Approved;
      NotificationSuccess_StatusUpdated "C-zero" Approved;
      FormResetFields; SetIsModalVisible false].
Proof. repeat split; vm_compute; reflexivity. Qed.

(** * Further properties of the code *)

(** ** More facts on numbers *)
Section MoreArithmetic.

Lemma lt_trans (a b c : num) : lt a b = true -> lt b c = true -> lt a c = true.
Proof.
  destruct a, b, c; simpl; try congruence.
  rewrite !qltb_true. lra.
Qed.

Lemma le_lt_trans (a b c : num) : le a b = true -> lt b c = true -> lt a c = true.
Proof.
  destruct a, b, c; simpl; try congruence.
  rewrite !qltb_true, Qle_bool_iff. lra.
Qed.

(** Two numbers whose roundings are strictly ordered are themselves so. *)
Lemma round_lt_lt (a b : num) :
  lt (Math_round a) (Math_round b) = true -> lt a b = true.
Proof.
  destruct a as [x| | |], b as [y| | |]; cbn [Math_round lt ofZ]; try congruence.
  rewrite !qltb_true, <- Zlt_Qlt. intros H.
  destruct (Qlt_le_dec x y) as [Hlt|Hge]; [exact Hlt|exfalso].
  assert (Hf : (Qfloor (y + (1 # 2)) <= Qfloor (x + (1 # 2)))%Z)
    by (apply Qfloor_resp_le; lra).
  lia.
Qed.

Lemma Math_max_0_Fin (x : Q) :
  Math_max (ofZ 0) (Fin x) = Fin (if qltb 0 x then x else 0).
Proof.
  unfold Math_max, ofZ. cbn [lt]. change (inject_Z 0) with 0.
  destruct (qltb 0 x); reflexivity.
Qed.

Lemma clamp_mono (x y : Q) :
  x <= y ->
  exists u v,
    Math_max (ofZ 0) (Math_min (ofZ 1) (Fin x)) = Fin u
    /\ Math_max (ofZ 0) (Math_min (ofZ 1) (Fin y)) = Fin v
    /\ u <= v.
Proof.
  intros Hxy. rewrite !Math_min_1_Fin, !Math_max_0_Fin.
  eexists. eexists. split; [reflexivity|]. split; [reflexivity|].
  destruct (qltb x 1) eqn:Ex, (qltb y 1) eqn:Ey;
    rewrite ?qltb_true, ?qltb_false in *.
  - destruct (qltb 0 x) eqn:E0, (qltb 0 y) eqn:E1;
      rewrite ?qltb_true, ?qltb_false in *; lra.
  - destruct (qltb 0 x) eqn:E0, (qltb 0 1) eqn:E1;
      rewrite ?qltb_true, ?qltb_false in *; lra.
  - lra.
  - lra.
Qed.

Lemma Qdiv_le_antitone (c x y : Q) : 0 <= c -> 0 < x -> x <= y -> c / y <= c / x.
Proof.
  intros Hc Hx Hxy.
  apply Qle_shift_div_r; [lra|].
  assert (Hr : 0 <= c / x) by (apply Qdiv_nonneg; assumption).
  assert (Hrx : c / x * x == c) by (field; lra).
  apply Qle_trans with (c / x * x); [rewrite Hrx; apply Qle_refl|].
  apply Qmult_le_compat_nonneg; split; lra.
Qed.

End MoreArithmetic.

(** ** The scorer: ranges, monotonicity, saturation *)

Lemma positive_income_score_in_range_witness :
  exists r, calculateRiskScore scenario DEFAULT_LOAN_PERIOD_MONTHS = inr r
    /\ (exists z : Z, score r = ofZ z /\ (0 <= z <= 100)%Z)
    /\ between 0 40 (f_creditScoreImpact (factors r)) = true
    /\ between 0 30 (f_repaymentHistoryImpact (factors r)) = true
    /\ between 0 30 (f_loanToIncomeRatioImpact (factors r)) = true.
Proof.
  apply (positive_income_score_in_range scenario DEFAULT_LOAN_PERIOD_MONTHS);
    reflexivity.
Defined.

(** X2.  For a valid profile with a positive income the three returned factors
    and the returned score are integers, and the factors add up to the score
    give or take 1: the total is rounded once, the factors one by one. *)
Theorem factors_sum_to_score_within_one :
  forall (customer : CustomerData) (loanPeriodMonths : num),
    validProfile customer loanPeriodMonths = true ->
    lt (ofZ 0) (monthlyIncome customer) = true ->
    exists r (s a b c : Z),
      calculateRiskScore customer loanPeriodMonths = inr r
      /\ score r = ofZ s
      /\ f_creditScoreImpact (factors r) = ofZ a
      /\ f_repaymentHistoryImpact (factors r) = ofZ b
      /\ f_loanToIncomeRatioImpact (factors r) = ofZ c
      /\ (-1 <= s - (a + b + c) <= 1)%Z.
Proof.
  intros customer p Hv Hpos.
  destruct (validProfile_returns _ _ Hv) as [r Hr].
  destruct (calculateRiskScore_inr _ _ _ Hr) as (_ & Hs & _ & Hc & Hh & Hl).
  assert (Bc : between 0 40 (creditScoreImpact customer) = true).
  { apply creditScoreImpact_between.
    destruct (validProfile_Fin _ _ Hv) as (q & _ & _ & _ & -> & _). reflexivity. }
  pose proof (repaymentHistoryImpact_between customer) as Bh.
  pose proof (loanToIncomeRatioImpact_between _ _ Hv Hpos) as Bl.
  apply between_Fin in Bc, Bh, Bl.
  destruct Bc as (x & Ex & _). destruct Bh as (y & Ey & _). destruct Bl as (z & Ez & _).
  unfold totalScore in Hs. rewrite Ex in Hc. rewrite Ey in Hh. rewrite Ez in Hl.
  rewrite Ex, Ey, Ez in Hs. cbn [add fin Math_round] in Hs, Hc, Hh, Hl.
  exists r. eexists. eexists. eexists. eexists.
  split; [exact Hr|]. split; [exact Hs|]. split; [exact Hc|].
  split; [exact Hh|]. split; [exact Hl|].
  set (t := Qred (Qred (x + y) + z)).
  assert (Ht : t == x + y + z) by (unfold t; rewrite !Qred_correct; reflexivity).
  pose proof (Qfloor_le (t + (1 # 2))) as Ht1.
  pose proof (Qlt_floor (t + (1 # 2))) as Ht2.
  pose proof (Qfloor_le (x + (1 # 2))) as Hx1.
  pose proof (Qlt_floor (x + (1 # 2))) as Hx2.
  pose proof (Qfloor_le (y + (1 # 2))) as Hy1.
  pose proof (Qlt_floor (y + (1 # 2))) as Hy2.
  pose proof (Qfloor_le (z + (1 # 2))) as Hz1.
  pose proof (Qlt_floor (z + (1 # 2))) as Hz2.
  rewrite inject_Z_plus in Ht2, Hx2, Hy2, Hz2.
  change (inject_Z 1) with 1 in *.
  set (T := Qfloor (t + (1 # 2))) in *. set (A := Qfloor (x + (1 # 2))) in *.
  set (B := Qfloor (y + (1 # 2))) in *. set (C := Qfloor (z + (1 # 2))) in *.
  assert (Hlo : inject_Z (A + B + C - 2) < inject_Z T).
  { unfold Z.sub. rewrite !inject_Z_plus. change (inject_Z (- (2))) with (-2). lra. }
  assert (Hhi : inject_Z T < inject_Z (A + B + C + 2)).
  { rewrite !inject_Z_plus. change (inject_Z 2) with 2. lra. }
  rewrite <- Zlt_Qlt in Hlo, Hhi. lia.
Qed.

Lemma factors_sum_to_score_within_one_witness :
  exists r (s a b c : Z),
    calculateRiskScore scenario DEFAULT_LOAN_PERIOD_MONTHS = inr r
    /\ score r = ofZ s
    /\ f_creditScoreImpact (factors r) = ofZ a
    /\ f_repaymentHistoryImpact (factors r) = ofZ b
    /\ f_loanToIncomeRatioImpact (factors r) = ofZ c
    /\ (-1 <= s - (a + b + c) <= 1)%Z.
Proof.
  apply (factors_sum_to_score_within_one scenario DEFAULT_LOAN_PERIOD_MONTHS);
    reflexivity.
Defined.

(** X3.  A higher credit score never gives a higher credit component: for two
    finite credit scores [creditScore a <= creditScore b], the component of
    [b] is at most that of [a], before and after rounding. *)
Theorem creditScoreImpact_antitone :
  forall a b : CustomerData,
    isFinite (creditScore a) = true ->
    isFinite (creditScore b) = true ->
    le (creditScore a) (creditScore b) = true ->
    le (creditScoreImpact b) (creditScoreImpact a) = true
    /\ le (Math_round (creditScoreImpact b)) (Math_round (creditScoreImpact a)) = true.
Proof.
  intros a b Fa Fb Hle.
  assert (H : le (creditScoreImpact b) (creditScoreImpact a) = true).
  { unfold creditScoreImpact, normalizedCreditScore, CREDIT_SCORE_WEIGHT.
    destruct (creditScore a) as [qa| | |]; try discriminate.
    destruct (creditScore b) as [qb| | |]; try discriminate.
    apply le_Fin in Hle.
    change (sub maxCreditScore minCreditScore) with (Fin 550).
    cbn [sub maxCreditScore ofZ]. unfold fin.
    rewrite !div_Fin_nonzero by (intro H; discriminate H). unfold fin.
    destruct (clamp_mono (Qred (Qred (inject_Z 850 - qb) / 550))
                         (Qred (Qred (inject_Z 850 - qa) / 550)))
      as (u & v & -> & -> & Huv).
    - rewrite !Qred_correct. apply Qdiv_le_compat_r; lra.
    - apply mul_weight_mono; [lia|exact Huv]. }
  split; [exact H|]. apply round_mono. exact H.
Qed.

Lemma creditScoreImpact_antitone_witness :
  le (creditScoreImpact (profile "C" 4000 700 24000 []))
     (creditScoreImpact (profile "C" 4000 620 24000 [])) = true.
Proof.
  apply (creditScoreImpact_antitone (profile "C" 4000 620 24000 [])
           (profile "C" 4000 700 24000 [])); reflexivity.
Defined.

(** X4.  With the same outstanding loans, a larger positive income and a
    longer loan period never give a larger loan component, before and after
    rounding. *)
Theorem loanToIncomeRatioImpact_antitone :
  forall (a b : CustomerData) (pa pb : num),
    outstandingLoans a = outstandingLoans b ->
    validProfile a pa = true ->
    validProfile b pb = true ->
    lt (ofZ 0) (monthlyIncome a) = true ->
    le (monthlyIncome a) (monthlyIncome b) = true ->
    le pa pb = true ->
    le (loanToIncomeRatioImpact b pb) (loanToIncomeRatioImpact a pa) = true
    /\ le (Math_round (loanToIncomeRatioImpact b pb))
          (Math_round (loanToIncomeRatioImpact a pa)) = true.
Proof.
  intros a b pa pb Hl Hva Hvb Hpos Hinc Hper.
  assert (H : le (loanToIncomeRatioImpact b pb) (loanToIncomeRatioImpact a pa) = true).
  { destruct (validProfile_Fin _ _ Hva)
      as (qa & ia & la & ma & _ & Hia & Hla & Hma & _ & _ & _ & Hla0 & Hma0).
    destruct (validProfile_Fin _ _ Hvb)
      as (qb & ib & lb & mb & _ & Hib & Hlb & Hmb & _ & _ & _ & _ & Hmb0).
    rewrite Hia in Hpos. apply lt_Fin in Hpos. change (inject_Z 0) with 0 in Hpos.
    rewrite Hia, Hib in Hinc. apply le_Fin in Hinc.
    rewrite Hma, Hmb in Hper. apply le_Fin in Hper.
    assert (lb = la) by congruence. subst lb.
    destruct (loanToIncomeRatioImpact_Fin a pa la ma ia Hla Hma Hia Hma0 Hpos)
      as (za & Hza & ->).
    destruct (loanToIncomeRatioImpact_Fin b pb la mb ib Hlb Hmb Hib Hmb0)
      as (zb & Hzb & ->); [lra|].
    assert (Hz : zb <= za).
    { rewrite Hza, Hzb. apply Qdiv_le_compat_r; [lra|].
      apply Qle_trans with (la / ma / ib).
      - apply Qdiv_le_compat_r; [lra|]. apply Qdiv_le_antitone; lra.
      - apply Qdiv_le_antitone; [|lra|lra]. apply Qdiv_nonneg; lra. }
    pose proof (Math_min_1_mono zb za Hz) as Hmin.
    rewrite !Math_min_1_Fin in *. apply le_Fin in Hmin.
    apply mul_weight_mono; [lia|exact Hmin]. }
  split; [exact H|]. apply round_mono. exact H.
Qed.

Lemma loanToIncomeRatioImpact_antitone_witness :
  le (loanToIncomeRatioImpact (profile "C" 8000 620 24000 []) (ofZ 36))
     (loanToIncomeRatioImpact (profile "C" 4000 620 24000 []) (ofZ 24)) = true.
Proof.
  apply (loanToIncomeRatioImpact_antitone
           (profile "C" 4000 620 24000 []) (profile "C" 8000 620 24000 [])
           (ofZ 24) (ofZ 36)); reflexivity.
Defined.

(** X5.  The loan component saturates: as soon as the loan-to-income ratio the
    scorer computes is at least 0.5 (or infinite), the component is exactly 30
    and so is the returned factor. *)
Theorem loanToIncomeRatioImpact_saturates :
  forall (customer : CustomerData) (loanPeriodMonths : num),
    le (Fin (1 # 2)) (loanToIncomeRatio customer loanPeriodMonths) = true ->
    loanToIncomeRatioImpact customer loanPeriodMonths = ofZ 30
    /\ forall r, calculateRiskScore customer loanPeriodMonths = inr r ->
                 f_loanToIncomeRatioImpact (factors r) = ofZ 30.
Proof.
  intros customer p Hle.
  assert (H : loanToIncomeRatioImpact customer p = ofZ 30).
  { unfold loanToIncomeRatioImpact, normalizedRatio, LOAN_RATIO_WEIGHT.
    destruct (loanToIncomeRatio customer p) as [q| | |]; try discriminate;
      [|reflexivity].
    apply le_Fin in Hle.
    rewrite div_Fin_nonzero by (intro H; discriminate H). unfold fin.
    rewrite Math_min_1_Fin.
    assert (E : qltb (Qred (q / (1 # 2))) 1 = false).
    { apply qltb_false. rewrite Qred_correct.
      apply Qle_shift_div_l; [reflexivity|]. lra. }
    rewrite E. reflexivity. }
  split; [exact H|]. intros r Hr.
  destruct (calculateRiskScore_inr _ _ _ Hr) as (_ & _ & _ & _ & _ & ->).
  rewrite H. reflexivity.
Qed.

Lemma loanToIncomeRatioImpact_saturates_witness :
  loanToIncomeRatioImpact highAt85 DEFAULT_LOAN_PERIOD_MONTHS = ofZ 30.
Proof.
  apply (loanToIncomeRatioImpact_saturates highAt85 DEFAULT_LOAN_PERIOD_MONTHS).
  reflexivity.
Defined.

(** ** The repayment history *)

Lemma filter_all (A : Type) (f : A -> bool) (l : list A) :
  forallb f l = true -> filter f l = l.
Proof.
  induction l as [|x l IH]; cbn; [reflexivity|].
  rewrite andb_true_iff. intros [-> H]. f_equal. auto.
Qed.

Lemma filter_none (A : Type) (f : A -> bool) (l : list A) :
  forallb (fun x => negb (f x)) l = true -> filter f l = [].
Proof.
  induction l as [|x l IH]; cbn; [reflexivity|].
  rewrite andb_true_iff, negb_true_iff. intros [-> H]. auto.
Qed.

Lemma filter_length_Permutation (A : Type) (f : A -> bool) (l l' : list A) :
  Permutation l l' -> List.length (filter f l) = List.length (filter f l').
Proof.
  induction 1 as [|x l l' _ IH|x y l|l l' l'' _ IH1 _ IH2]; cbn.
  - reflexivity.
  - destruct (f x); cbn; congruence.
  - destruct (f x), (f y); reflexivity.
  - congruence.
Qed.

Lemma ofNat_pos (n : nat) : n <> 0%nat -> 0 < inject_Z (Z.of_nat n).
Proof. intros Hn. change 0 with (inject_Z 0). rewrite <- Zlt_Qlt. lia. Qed.

(** The repayment component of a non-empty history, from the number [k] of
    missed payments and the length [n]. *)
Lemma repaymentHistoryImpact_nonempty (customer : CustomerData) :
  repaymentHistoryLength customer <> 0%nat ->
  repaymentHistoryImpact customer =
    mul (Fin (Qred (inject_Z (Z.of_nat (List.length (missedPayments customer)))
                    / inject_Z (Z.of_nat (repaymentHistoryLength customer)))))
        (ofZ 30).
Proof.
  intros Hn. unfold repaymentHistoryImpact, REPAYMENT_HISTORY_WEIGHT.
  destruct (Nat.eqb_spec (repaymentHistoryLength customer) 0) as [E|_];
    [contradiction|].
  unfold ofNat, ofZ at 1 2.
  rewrite div_Fin_nonzero; [reflexivity|].
  pose proof (ofNat_pos _ Hn). lra.
Qed.

(** X6.  On a non-empty history the repayment component is exactly 30 when
    every payment was missed and exactly 0 when none was. *)
Theorem repaymentHistoryImpact_extremes :
  forall customer : CustomerData,
    loanRepaymentHistory customer <> [] ->
    (forallb (fun payment => strictEq payment (ofZ 0)) (loanRepaymentHistory customer)
       = true ->
     repaymentHistoryImpact customer = ofZ 30)
    /\ (forallb (fun payment => negb (strictEq payment (ofZ 0)))
          (loanRepaymentHistory customer) = true ->
        repaymentHistoryImpact customer = ofZ 0).
Proof.
  intros customer Hne.
  assert (Hn : repaymentHistoryLength customer <> 0%nat).
  { unfold repaymentHistoryLength.
    destruct (loanRepaymentHistory customer); [contradiction|discriminate]. }
  pose proof (ofNat_pos _ Hn) as Hpos.
  rewrite (repaymentHistoryImpact_nonempty _ Hn). unfold missedPayments.
  split; intros H.
  - rewrite (filter_all _ _ _ H). fold (repaymentHistoryLength customer).
    set (N := inject_Z (Z.of_nat (repaymentHistoryLength customer))) in *.
    rewrite (Qred_complete (N / N) 1) by (field; lra). reflexivity.
  - rewrite (filter_none _ _ _ H). cbn [List.length Z.of_nat].
    set (N := inject_Z (Z.of_nat (repaymentHistoryLength customer))) in *.
    rewrite (Qred_complete (inject_Z 0 / N) 0) by (change (inject_Z 0) with 0; field; lra).
    reflexivity.
Qed.

Lemma repaymentHistoryImpact_extremes_witness :
  repaymentHistoryImpact (profile "C" 4000 620 24000 [0; 0; 0]%Z) = ofZ 30
  /\ repaymentHistoryImpact (profile "C" 4000 620 24000 [1; 1; 1; 1]%Z) = ofZ 0.
Proof.
  split.
  - apply (repaymentHistoryImpact_extremes (profile "C" 4000 620 24000 [0; 0; 0]%Z));
      [discriminate|reflexivity].
  - apply (repaymentHistoryImpact_extremes (profile "C" 4000 620 24000 [1; 1; 1; 1]%Z));
      [discriminate|reflexivity].
Defined.

(** X7.  The order of the payments does not matter: two profiles whose
    histories are permutations of each other, and which agree on the other
    fields the scorer reads, get the same repayment component and the same
    result. *)
Theorem repaymentHistoryImpact_order_irrelevant :
  forall (a b : CustomerData) (loanPeriodMonths : num),
    Permutation (loanRepaymentHistory a) (loanRepaymentHistory b) ->
    customerId a = customerId b ->
    monthlyIncome a = monthlyIncome b ->
    outstandingLoans a = outstandingLoans b ->
    creditScore a = creditScore b ->
    repaymentHistoryImpact a = repaymentHistoryImpact b
    /\ calculateRiskScore a loanPeriodMonths = calculateRiskScore b loanPeriodMonths.
Proof.
  intros a b p Hperm Hid Hi Hl Hc.
  assert (H : repaymentHistoryImpact a = repaymentHistoryImpact b).
  { unfold repaymentHistoryImpact, repaymentHistoryLength, missedPayments.
    rewrite (Permutation_length Hperm).
    rewrite (filter_length_Permutation _ _ _ _ Hperm). reflexivity. }
  split; [exact H|].
  unfold calculateRiskScore, totalScore, creditScoreImpact, normalizedCreditScore,
    loanToIncomeRatioImpact, normalizedRatio, loanToIncomeRatio, monthlyLoanBurden.
  rewrite H, Hid, Hi, Hl, Hc. reflexivity.
Qed.

Lemma repaymentHistoryImpact_order_irrelevant_witness :
  repaymentHistoryImpact (profile "C" 4000 620 24000 [0; 1; 1]%Z) =
  repaymentHistoryImpact (profile "C" 4000 620 24000 [1; 0; 1]%Z).
Proof.
  apply (repaymentHistoryImpact_order_irrelevant
           (profile "C" 4000 620 24000 [0; 1; 1]%Z)
           (profile "C" 4000 620 24000 [1; 0; 1]%Z) DEFAULT_LOAN_PERIOD_MONTHS);
    try reflexivity.
  apply perm_swap.
Defined.

Lemma Qfrac_succ_le (K N : Q) : 0 <= K -> K <= N -> 0 < N -> K / N <= (K + 1) / (N + 1).
Proof.
  intros HK HKN HN.
  apply Qle_shift_div_l; [lra|].
  assert (Hr1 : K / N <= 1) by (apply Qle_shift_div_r; lra).
  assert (Hrn : K / N * N == K) by (field; lra).
  setoid_replace (K / N * (N + 1)) with (K / N * N + K / N) by ring.
  lra.
Qed.

(** X8.  Recording one more payment moves the repayment component the right
    way, whatever the history (empty or not): a missed payment never lowers
    it, a payment that is not a miss never raises it. *)
Theorem repaymentHistoryImpact_one_more_payment :
  forall (a b : CustomerData) (payment : num),
    loanRepaymentHistory b = (loanRepaymentHistory a ++ [payment])%list ->
    (strictEq payment (ofZ 0) = true ->
     le (repaymentHistoryImpact a) (repaymentHistoryImpact b) = true)
    /\ (strictEq payment (ofZ 0) = false ->
        le (repaymentHistoryImpact b) (repaymentHistoryImpact a) = true).
Proof.
  intros a b payment Hb.
  destruct (loanRepaymentHistory a) as [|x l] eqn:Ha.
  - unfold repaymentHistoryImpact, repaymentHistoryLength, missedPayments.
    rewrite Ha, Hb. cbn [app filter List.length Nat.eqb].
    split; intros ->; reflexivity.
  - assert (Hna : repaymentHistoryLength a <> 0%nat)
      by (unfold repaymentHistoryLength; rewrite Ha; discriminate).
    assert (Hnb : repaymentHistoryLength b <> 0%nat)
      by (unfold repaymentHistoryLength; rewrite Hb; discriminate).
    rewrite (repaymentHistoryImpact_nonempty _ Hna),
      (repaymentHistoryImpact_nonempty _ Hnb).
    pose proof (missedPayments_length a) as Hka.
    pose proof (ofNat_pos _ Hna) as Hpos.
    assert (En : repaymentHistoryLength b = S (repaymentHistoryLength a)).
    { unfold repaymentHistoryLength. rewrite Hb, Ha, length_app. cbn. lia. }
    assert (Ek : List.length (missedPayments b) =
                 (List.length (missedPayments a)
                  + (if strictEq payment (ofZ 0) then 1 else 0))%nat).
    { unfold missedPayments. rewrite Hb, <- Ha, filter_app, length_app.
      cbn [filter]. destruct (strictEq payment (ofZ 0)); reflexivity. }
    rewrite Ek, En, !Nat2Z.inj_succ.
    set (k := List.length (missedPayments a)) in *.
    set (n := repaymentHistoryLength a) in *.
    assert (HK : 0 <= inject_Z (Z.of_nat k))
      by (change 0 with (inject_Z 0); rewrite <- Zle_Qle; lia).
    assert (HKN : inject_Z (Z.of_nat k) <= inject_Z (Z.of_nat n))
      by (rewrite <- Zle_Qle; lia).
    split; intros ->; apply mul_weight_mono; try lia; rewrite Qred_le.
    + replace (k + 1)%nat with (S k) by lia. rewrite Nat2Z.inj_succ.
      unfold Z.succ. rewrite !inject_Z_plus. change (inject_Z 1) with 1.
      apply Qfrac_succ_le; assumption.
    + rewrite Nat.add_0_r. unfold Z.succ. rewrite inject_Z_plus.
      change (inject_Z 1) with 1.
      apply Qdiv_le_antitone; lra.
Qed.

Lemma repaymentHistoryImpact_one_more_payment_witness :
  le (repaymentHistoryImpact (profile "C" 4000 620 24000 [1; 0]%Z))
     (repaymentHistoryImpact (profile "C" 4000 620 24000 [1; 0; 0]%Z)) = true.
Proof.
  apply (repaymentHistoryImpact_one_more_payment
           (profile "C" 4000 620 24000 [1; 0]%Z)
           (profile "C" 4000 620 24000 [1; 0; 0]%Z) (ofZ 0)); reflexivity.
Defined.

(** X23.  The history column and the scorer agree on well-formed histories,
    payment by payment: the column shows one tag per payment, in the order of
    the history; the tag is "P" exactly when the payment is 1 and "M"
    otherwise, so every payment the scorer counts as missed (a 0) is shown
    with the tag "M" at its own position.  When every entry is 0 or 1 the
    payments tagged "M" are exactly the missed ones, and there are as many of
    them.  (An entry other than 0 and 1 is shown as "M" and not counted.) *)
Theorem repaymentTags_cover_missedPayments :
  forall customer : CustomerData,
    Forall2 (fun (payment : num) (tag : string) =>
               (strictEq payment (ofZ 0) = true -> tag = "M")
               /\ (strictEq payment (ofZ 1) = true -> tag = "P")
               /\ (strictEq payment (ofZ 1) = false -> tag = "M"))
            (loanRepaymentHistory customer) (Dashboard.repaymentTags customer)
    /\ (forallb (fun payment => strictEq payment (ofZ 0) || strictEq payment (ofZ 1))
          (loanRepaymentHistory customer) = true ->
        Forall2 (fun (payment : num) (tag : string) =>
                   tag = "M" <-> strictEq payment (ofZ 0) = true)
                (loanRepaymentHistory customer) (Dashboard.repaymentTags customer)
        /\ Dashboard.missedTags customer = List.length (missedPayments customer)).
Proof.
  intros customer.
  unfold Dashboard.missedTags, Dashboard.repaymentTags, missedPayments.
  assert (H01 : forall p, strictEq p (ofZ 0) = true -> strictEq p (ofZ 1) = false).
  { intros [q| | |]; cbn; try discriminate. intros H0.
    apply Qeq_bool_eq in H0. destruct (Qeq_bool q (inject_Z 1)) eqn:E; [|reflexivity].
    apply Qeq_bool_eq in E. rewrite H0 in E. discriminate E. }
  induction (loanRepaymentHistory customer) as [|p l [IH1 IH2]].
  - split; [constructor|]. intros _. split; [constructor|reflexivity].
  - cbn [map filter forallb]. split.
    + constructor; [|exact IH1].
      split; [intros H0; rewrite (H01 p H0); reflexivity|].
      split; intros ->; reflexivity.
    + rewrite andb_true_iff. intros [Hp Hl].
      destruct (IH2 Hl) as [IHa IHb].
      destruct (strictEq p (ofZ 0)) eqn:E0.
      * rewrite (H01 p E0). cbn [filter].
        change (String.eqb "M" "M") with true. cbn [List.length].
        split; [|rewrite IHb; reflexivity].
        constructor; [|exact IHa]. split; intros _; [exact E0|reflexivity].
      * cbn [orb] in Hp. rewrite Hp. cbn [filter].
        change (String.eqb "M" "P") with false.
        split; [|exact IHb].
        constructor; [|exact IHa].
        split; [discriminate|rewrite E0; discriminate].
Qed.

Lemma repaymentTags_cover_missedPayments_witness :
  Forall2 (fun (payment : num) (tag : string) =>
             tag = "M" <-> strictEq payment (ofZ 0) = true)
          (loanRepaymentHistory scenario) (Dashboard.repaymentTags scenario)
  /\ Dashboard.missedTags scenario = List.length (missedPayments scenario).
Proof.
  apply (repaymentTags_cover_missedPayments scenario). reflexivity.
Defined.

(** ** Score, level and colour *)



Lemma riskLevel_inv (total : num) :
  match riskLevel total with
  | Low => lt total (ofZ 30) = true
  | Medium => le (ofZ 30) total = true /\ lt total (ofZ 60) = true
  | High => lt total (ofZ 60) = false /\ lt total (ofZ 30) = false
  end.
Proof.
  unfold riskLevel, RISK_THRESHOLDS_LOW, RISK_THRESHOLDS_MEDIUM.
  destruct (lt total (ofZ 30)) eqn:E30; [reflexivity|].
  destruct (lt total (ofZ 60)) eqn:E60; [|auto].
  split; [|reflexivity].
  destruct total as [q| | |]; try discriminate.
  cbn [lt le ofZ] in *. apply qltb_false in E30. apply Qle_bool_iff. exact E30.
Qed.

(** X9.  Levels follow scores: of two returned risk scores, the one with the
    strictly smaller score never has the higher level ([Low] < [Medium] <
    [High], the ranks of the level sorter). *)
Theorem level_monotone_in_score :
  forall (ca cb : CustomerData) (pa pb : num) (ra rb : RiskScore),
    calculateRiskScore ca pa = inr ra ->
    calculateRiskScore cb pb = inr rb ->
    lt (score ra) (score rb) = true ->
    (Dashboard.levels (level ra) <= Dashboard.levels (level rb))%Z.
Proof.
  intros ca cb pa pb ra rb Ha Hb Hlt.
  destruct (calculateRiskScore_inr _ _ _ Ha) as (_ & Hsa & Hla & _).
  destruct (calculateRiskScore_inr _ _ _ Hb) as (_ & Hsb & Hlb & _).
  rewrite Hsa, Hsb in Hlt. apply round_lt_lt in Hlt.
  rewrite Hla, Hlb.
  pose proof (riskLevel_inv (totalScore ca pa)) as Ia.
  pose proof (riskLevel_inv (totalScore cb pb)) as Ib.
  destruct (riskLevel (totalScore ca pa)), (riskLevel (totalScore cb pb));
    cbn; try lia; exfalso.
  - pose proof (lt_trans _ _ _ Hlt Ib). destruct Ia as [Ia _].
    apply le_lt_false in Ia. congruence.
  - pose proof (lt_trans _ _ _ Hlt Ib). destruct Ia as [_ Ia]. congruence.
  - destruct Ib as [_ Ib]. pose proof (lt_trans _ _ _ Hlt Ib).
    destruct Ia as [Ia _]. congruence.
Qed.

Lemma level_monotone_in_score_witness :
  (Dashboard.levels Medium <= Dashboard.levels High)%Z.
Proof.
  apply (level_monotone_in_score scenario highAt63 DEFAULT_LOAN_PERIOD_MONTHS
           DEFAULT_LOAN_PERIOD_MONTHS
           {| rs_customerId := "C-scenario"; score := ofZ 37; level := Medium;
              factors := {| f_creditScoreImpact := ofZ 17;
                            f_repaymentHistoryImpact := ofZ 5;
                            f_loanToIncomeRatioImpact := ofZ 15 |} |}
           {| rs_customerId := "C-63"; score := ofZ 63; level := High;
              factors := {| f_creditScoreImpact := ofZ 40;
                            f_repaymentHistoryImpact := ofZ 15;
                            f_loanToIncomeRatioImpact := ofZ 8 |} |});
    vm_compute; reflexivity.
Defined.



(** ** Batch scoring and the derived data *)

(** X11.  A successful batch echoes the customer ids: the returned scores
    carry the ids of the profiles, in the same order. *)
Theorem calculateAllRiskScores_echoes_ids :
  forall (customerData : list CustomerData) (scores : list RiskScore),
    calculateAllRiskScores customerData = inr scores ->
    map rs_customerId scores = map customerId customerData.
Proof.
  induction customerData as [|c cs IH]; intros scores; cbn [calculateAllRiskScores].
  - intros [= <-]. reflexivity.
  - destruct (calculateRiskScore c DEFAULT_LOAN_PERIOD_MONTHS) as [e|r] eqn:Hc;
      [discriminate|].
    destruct (calculateAllRiskScores cs) as [e|rs]; [discriminate|].
    intros [= <-]. cbn [map]. f_equal; [|apply IH; reflexivity].
    apply (calculateRiskScore_inr _ _ _ Hc).
Qed.

Lemma calculateAllRiskScores_echoes_ids_witness :
  map rs_customerId
    [ {| rs_customerId := "C-scenario"; score := ofZ 37; level := Medium;
         factors := {| f_creditScoreImpact := ofZ 17;
                       f_repaymentHistoryImpact := ofZ 5;
                       f_loanToIncomeRatioImpact := ofZ 15 |} |};
      {| rs_customerId := "C-63"; score := ofZ 63; level := High;
         factors := {| f_creditScoreImpact := ofZ 40;
                       f_repaymentHistoryImpact := ofZ 15;
                       f_loanToIncomeRatioImpact := ofZ 8 |} |} ] =
  map customerId [scenario; highAt63].
Proof.
  apply calculateAllRiskScores_echoes_ids. vm_compute. reflexivity.
Defined.

Lemma calculateAllRiskScores_length :
  forall (customerData : list CustomerData) (scores : list RiskScore),
    calculateAllRiskScores customerData = inr scores ->
    List.length scores = List.length customerData.
Proof.
  induction customerData as [|c cs IH]; intros scores; cbn [calculateAllRiskScores].
  - intros [= <-]. reflexivity.
  - destruct (calculateRiskScore c DEFAULT_LOAN_PERIOD_MONTHS); [discriminate|].
    destruct (calculateAllRiskScores cs) as [e|rs]; [discriminate|].
    intros [= <-]. cbn [List.length]. f_equal. apply IH. reflexivity.
Qed.

Lemma countLevel_partition (scores : list RiskScore) :
  (Dashboard.countLevel Low scores + Dashboard.countLevel Medium scores
   + Dashboard.countLevel High scores)%nat = List.length scores.
Proof.
  unfold Dashboard.countLevel.
  induction scores as [|r rs IH]; [reflexivity|].
  cbn [filter List.length]. destruct (level r); cbn [RiskLevel_eqb List.length]; lia.
Qed.

(** X12.  When the customers are scored, the three counts of the risk
    distribution (pie chart and bar chart alike) add up to the number of
    customers, and the "high risk customers" metric is the High count, at most
    the "total customers" metric. *)
Theorem riskDistribution_partitions_customers :
  forall (customerData : list CustomerData) (scores : list RiskScore),
    calculateAllRiskScores customerData = inr scores ->
    list_sum (map snd (Dashboard.riskDistributionData scores)) =
      List.length customerData
    /\ map snd (Dashboard.riskChartData scores) =
       map snd (Dashboard.riskDistributionData scores)
    /\ Dashboard.totalCustomers (Dashboard.metrics customerData scores) =
       List.length customerData
    /\ Dashboard.highRiskCustomers (Dashboard.metrics customerData scores) =
       Dashboard.countLevel High scores
    /\ (Dashboard.highRiskCustomers (Dashboard.metrics customerData scores)
        <= Dashboard.totalCustomers (Dashboard.metrics customerData scores))%nat.
Proof.
  intros customerData scores Hs.
  pose proof (calculateAllRiskScores_length _ _ Hs) as Hlen.
  pose proof (countLevel_partition scores) as Hp.
  split; [cbn; lia|]. split; [reflexivity|].
  unfold Dashboard.metrics.
  destruct (Nat.eqb_spec (List.length customerData) 0) as [E|E]; cbn.
  - rewrite E in Hlen. destruct scores; [|discriminate]. cbn. auto.
  - repeat split; lia.
Qed.

Lemma riskDistribution_partitions_customers_witness :
  list_sum (map snd (Dashboard.riskDistributionData
    [ {| rs_customerId := "C-scenario"; score := ofZ 37; level := Medium;
         factors := {| f_creditScoreImpact := ofZ 17;
                       f_repaymentHistoryImpact := ofZ 5;
                       f_loanToIncomeRatioImpact := ofZ 15 |} |};
      {| rs_customerId := "C-63"; score := ofZ 63; level := High;
         factors := {| f_creditScoreImpact := ofZ 40;
                       f_repaymentHistoryImpact := ofZ 15;
                       f_loanToIncomeRatioImpact := ofZ 8 |} |} ])) = 2%nat.
Proof.
  apply (riskDistribution_partitions_customers [scenario; highAt63]).
  vm_compute. reflexivity.
Defined.

(** ** The rows of the workflow table *)

Lemma find_score_of_first :
  forall (customerData : list CustomerData) (scores : list RiskScore) (id : string),
    calculateAllRiskScores customerData = inr scores ->
    match find (fun c => String.eqb (customerId c) id) customerData with
    | Some first =>
        exists r, calculateRiskScore first DEFAULT_LOAN_PERIOD_MONTHS = inr r
                  /\ find (fun s => String.eqb (rs_customerId s) id) scores = Some r
    | None => find (fun s => String.eqb (rs_customerId s) id) scores = None
    end.
Proof.
  induction customerData as [|c cs IH]; intros scores id; cbn [calculateAllRiskScores].
  - intros [= <-]. reflexivity.
  - destruct (calculateRiskScore c DEFAULT_LOAN_PERIOD_MONTHS) as [e|r] eqn:Hc;
      [discriminate|].
    destruct (calculateAllRiskScores cs) as [e|rs] eqn:Hcs; [discriminate|].
    intros [= <-]. cbn [find].
    destruct (calculateRiskScore_inr _ _ _ Hc) as (-> & _).
    destruct (String.eqb (customerId c) id); [eauto|].
    apply IH. reflexivity.
Qed.

Lemma find_first_self (customerData : list CustomerData) (c : CustomerData) :
  NoDup (map customerId customerData) -> In c customerData ->
  find (fun x => String.eqb (customerId x) (customerId c)) customerData = Some c.
Proof.
  induction customerData as [|x xs IH]; intros Hnd Hin; [destruct Hin|].
  cbn [map] in Hnd. inversion Hnd as [|y ys Hnotin Hnd' E]; subst.
  cbn [find].
  destruct (String.eqb_spec (customerId x) (customerId c)) as [Heq|Hne].
  - destruct Hin as [->|Hin]; [reflexivity|].
    exfalso. apply Hnotin. rewrite Heq. apply in_map. exact Hin.
  - destruct Hin as [->|Hin]; [congruence|]. auto.
Qed.

(** X13.  When the customers are scored, the workflow table has one row per
    customer, in order, and each row shows the level and the score ([0] in
    place of a score that is 0 or [NaN]) of the first customer of the list
    that carries the row's customer id; no row shows 'N/A'. *)
Theorem customersWithRisk_rows_show_first_match :
  forall (customerData : list CustomerData) (scores : list RiskScore),
    calculateAllRiskScores customerData = inr scores ->
    map row_customer (customersWithRisk customerData scores) = customerData
    /\ Forall
         (fun row =>
            exists first r,
              find (fun c => String.eqb (customerId c) (customerId (row_customer row)))
                   customerData = Some first
              /\ calculateRiskScore first DEFAULT_LOAN_PERIOD_MONTHS = inr r
              /\ row_riskLevel row = levelName (level r)
              /\ row_riskScore row = orElse (score r) (ofZ 0))
         (customersWithRisk customerData scores).
Proof.
  intros customerData scores Hs. unfold customersWithRisk. split.
  - rewrite map_map. cbn. apply map_id.
  - apply Forall_forall. intros row Hrow.
    apply in_map_iff in Hrow. destruct Hrow as (c & <- & Hin). cbn.
    pose proof (find_score_of_first customerData scores (customerId c) Hs) as H.
    destruct (find (fun x => String.eqb (customerId x) (customerId c)) customerData)
      as [first|] eqn:Ef.
    + destruct H as (r & Hr & ->). exists first, r. auto.
    + exfalso. apply (find_none _ _ Ef) in Hin.
      rewrite String.eqb_refl in Hin. discriminate.
Qed.

Lemma customersWithRisk_rows_show_first_match_witness :
  map row_customer
    (customersWithRisk [scenario; highAt63]
       [ {| rs_customerId := "C-scenario"; score := ofZ 37; level := Medium;
            factors := {| f_creditScoreImpact := ofZ 17;
                          f_repaymentHistoryImpact := ofZ 5;
                          f_loanToIncomeRatioImpact := ofZ 15 |} |};
         {| rs_customerId := "C-63"; score := ofZ 63; level := High;
            factors := {| f_creditScoreImpact := ofZ 40;
                          f_repaymentHistoryImpact := ofZ 15;
                          f_loanToIncomeRatioImpact := ofZ 8 |} |} ]) =
  [scenario; highAt63].
Proof.
  apply (customersWithRisk_rows_show_first_match [scenario; highAt63]).
  vm_compute. reflexivity.
Defined.

(** X14.  With unique customer ids every row of the workflow table shows its
    own customer's level and score ([0] in place of a score that is 0 or
    [NaN]). *)
Theorem customersWithRisk_rows_show_own_score :
  forall (customerData : list CustomerData) (scores : list RiskScore),
    calculateAllRiskScores customerData = inr scores ->
    NoDup (map customerId customerData) ->
    Forall
      (fun row =>
         exists r,
           calculateRiskScore (row_customer row) DEFAULT_LOAN_PERIOD_MONTHS = inr r
           /\ row_riskLevel row = levelName (level r)
           /\ row_riskScore row = orElse (score r) (ofZ 0))
      (customersWithRisk customerData scores).
Proof.
  intros customerData scores Hs Hnd. unfold customersWithRisk.
  apply Forall_forall. intros row Hrow.
  apply in_map_iff in Hrow. destruct Hrow as (c & <- & Hin). cbn.
  pose proof (find_score_of_first customerData scores (customerId c) Hs) as H.
  rewrite (find_first_self customerData c Hnd Hin) in H.
  destruct H as (r & Hr & ->). exists r. auto.
Qed.

Lemma customersWithRisk_rows_show_own_score_witness :
  Forall
    (fun row =>
       exists r,
         calculateRiskScore (row_customer row) DEFAULT_LOAN_PERIOD_MONTHS = inr r
         /\ row_riskLevel row = levelName (level r)
         /\ row_riskScore row = orElse (score r) (ofZ 0))
    (customersWithRisk [scenario; highAt63]
       [ {| rs_customerId := "C-scenario"; score := ofZ 37; level := Medium;
            factors := {| f_creditScoreImpact := ofZ 17;
                          f_repaymentHistoryImpact := ofZ 5;
                          f_loanToIncomeRatioImpact := ofZ 15 |} |};
         {| rs_customerId := "C-63"; score := ofZ 63; level := High;
            factors := {| f_creditScoreImpact := ofZ 40;
                          f_repaymentHistoryImpact := ofZ 15;
                          f_loanToIncomeRatioImpact := ofZ 8 |} |} ]).
Proof.
  apply (customersWithRisk_rows_show_own_score [scenario; highAt63]).
  - vm_compute. reflexivity.
  - repeat constructor; simpl; intuition discriminate.
Defined.

Lemma add_NaN_r (a : num) : add a NaN = NaN.
Proof. destruct a; reflexivity. Qed.

(** X15.  A customer with no income and no loans (the other fields valid,
    customer ids unique) is listed with risk score 0 and level 'High': its
    score is [NaN], which [|| 0] turns into 0. *)
Theorem zero_income_row_shows_0_and_High :
  forall (customerData : list CustomerData) (scores : list RiskScore)
         (c : CustomerData),
    calculateAllRiskScores customerData = inr scores ->
    NoDup (map customerId customerData) ->
    In c customerData ->
    validProfile c DEFAULT_LOAN_PERIOD_MONTHS = true ->
    strictEq (monthlyIncome c) (ofZ 0) = true ->
    strictEq (outstandingLoans c) (ofZ 0) = true ->
    In {| row_customer := c; row_riskScore := ofZ 0; row_riskLevel := "High" |}
       (customersWithRisk customerData scores).
Proof.
  intros customerData scores c Hs Hnd Hin Hv Hi Hl.
  destruct (zero_income_is_scored c DEFAULT_LOAN_PERIOD_MONTHS Hv Hi) as (r & Hr & Hf).
  rewrite Hl in Hf.
  destruct (calculateRiskScore_inr _ _ _ Hr) as (_ & Hsc & Hlv & _ & _ & Hf').
  assert (Hnan : loanToIncomeRatioImpact c DEFAULT_LOAN_PERIOD_MONTHS = NaN).
  { rewrite Hf' in Hf.
    destruct (loanToIncomeRatioImpact c DEFAULT_LOAN_PERIOD_MONTHS);
      unfold Math_round, ofZ in Hf; [discriminate Hf| discriminate Hf
                                    | discriminate Hf | reflexivity]. }
  unfold totalScore in Hsc, Hlv. rewrite Hnan, add_NaN_r in Hsc, Hlv.
  unfold customersWithRisk. apply in_map_iff. exists c. split; [|exact Hin].
  pose proof (find_score_of_first customerData scores (customerId c) Hs) as H.
  rewrite (find_first_self customerData c Hnd Hin) in H.
  destruct H as (r' & Hr' & ->).
  assert (r' = r) by congruence. subst r'.
  rewrite Hsc, Hlv. reflexivity.
Qed.

Lemma zero_income_row_shows_0_and_High_witness :
  In {| row_customer := noIncomeNoLoans; row_riskScore := ofZ 0;
        row_riskLevel := "High" |}
     (customersWithRisk [noIncomeNoLoans]
        [ {| rs_customerId := "C-zero"; score := NaN; level := High;
             factors := {| f_creditScoreImpact := ofZ 0;
                           f_repaymentHistoryImpact := ofZ 15;
                           f_loanToIncomeRatioImpact := NaN |} |} ]).
Proof.
  apply (zero_income_row_shows_0_and_High [noIncomeNoLoans]).
  - vm_compute. reflexivity.
  - repeat constructor; simpl; intuition discriminate.
  - left. reflexivity.
  - reflexivity.
  - reflexivity.
  - reflexivity.
Defined.

(** ** The approval handler, the warning and the progress bar *)

(** X16.  Whatever the scores, the customer, the form values and the outcome
    of the update: a run of the handler raises at most one alert; it raises
    one only for a transition to Approved whose update fulfilled with [true],
    and then success is reported after the alert; a run that does not report
    success raises none. *)
Theorem handleUpdateStatus_alert_safety :
  forall (updateCustomerStatus : string -> Status -> Settled)
         (scores : list RiskScore) (currentCustomer : option CustomerData)
         (values : FormValues),
    (alertCount (handleUpdateStatus updateCustomerStatus scores currentCustomer values)
       <= 1)%nat
    /\ (alertCount
          (handleUpdateStatus updateCustomerStatus scores currentCustomer values)
        = 1%nat ->
        v_status values = Approved
        /\ reportsSuccess
             (handleUpdateStatus updateCustomerStatus scores currentCustomer values)
           = true
        /\ alertsBeforeSuccess
             (handleUpdateStatus updateCustomerStatus scores currentCustomer values)
           = 1%nat
        /\ exists current,
             currentCustomer = Some current
             /\ updateCustomerStatus (customerId current) Approved = Fulfilled true)
    /\ (reportsSuccess
          (handleUpdateStatus updateCustomerStatus scores currentCustomer values)
        = false ->
        alertCount
          (handleUpdateStatus updateCustomerStatus scores currentCustomer values)
        = 0%nat).
Proof.
  intros upd scores [current|] values; cbn [handleUpdateStatus];
    [|cbn; repeat split; try lia; discriminate].
  destruct (upd (customerId current) (v_status values)) as [[|]|e] eqn:Hupd;
    try (cbn; repeat split; try lia; discriminate).
  destruct (findCustomerRisk scores current) as [r|];
    [|cbn; repeat split; try lia; discriminate].
  destruct (gt (score r) (ofZ 70));
    [|cbn; repeat split; try lia; discriminate].
  destruct (v_status values) eqn:Hst; cbn;
    try (repeat split; try lia; discriminate).
  repeat split; try lia. exists current. auto.
Qed.

Lemma scores_come_from_customers :
  forall (customerData : list CustomerData) (scores : list RiskScore) (s : RiskScore),
    calculateAllRiskScores customerData = inr scores ->
    In s scores ->
    exists c, In c customerData
              /\ calculateRiskScore c DEFAULT_LOAN_PERIOD_MONTHS = inr s.
Proof.
  induction customerData as [|c cs IH]; intros scores s; cbn [calculateAllRiskScores].
  - intros [= <-] [].
  - destruct (calculateRiskScore c DEFAULT_LOAN_PERIOD_MONTHS) as [e|r] eqn:Hc;
      [discriminate|].
    destruct (calculateAllRiskScores cs) as [e|rs] eqn:Hcs; [discriminate|].
    intros [= <-] [<-|Hin].
    + exists c. split; [left; reflexivity|exact Hc].
    + destruct (IH rs s eq_refl Hin) as (c' & Hin' & Hc'). exists c'.
      split; [right; exact Hin'|exact Hc'].
Qed.

Lemma find_all_false (A : Type) (f : A -> bool) (l : list A) :
  (forall x, In x l -> f x = false) -> find f l = None.
Proof.
  induction l as [|x l IH]; intros H; [reflexivity|]. cbn.
  rewrite (H x (or_introl eq_refl)). apply IH. intros y Hy. apply H. right. exact Hy.
Qed.

Lemma find_high_risk :
  forall (customerData : list CustomerData) (scores : list RiskScore)
         (current : CustomerData),
    calculateAllRiskScores customerData = inr scores ->
    NoDup (map customerId customerData) ->
    In current customerData ->
    exists r, calculateRiskScore current DEFAULT_LOAN_PERIOD_MONTHS = inr r
      /\ findCustomerRisk scores current = Some r
      /\ find (fun score => String.eqb (rs_customerId score) (customerId current)
                            && RiskLevel_eqb (level score) High) scores =
         (if RiskLevel_eqb (level r) High then Some r else None).
Proof.
  induction customerData as [|c cs IH]; intros scores current Hall Hnd Hin;
    [destruct Hin|].
  cbn [calculateAllRiskScores] in Hall.
  destruct (calculateRiskScore c DEFAULT_LOAN_PERIOD_MONTHS) as [e|r0] eqn:Hc;
    [discriminate|].
  destruct (calculateAllRiskScores cs) as [e|rs] eqn:Hcs; [discriminate|].
  injection Hall as <-.
  destruct (calculateRiskScore_inr _ _ _ Hc) as (Hid & _).
  cbn [map] in Hnd. inversion Hnd as [|x xs Hnotin Hnd' Heq]; subst.
  unfold findCustomerRisk. cbn [find]. rewrite Hid.
  destruct (String.eqb_spec (customerId c) (customerId current)) as [Heq|Hne].
  - assert (current = c).
    { destruct Hin as [<-|Hin]; [reflexivity|].
      exfalso. apply Hnotin. rewrite Heq. apply in_map. exact Hin. }
    subst current. exists r0. split; [exact Hc|]. split; [reflexivity|].
    cbn [andb]. destruct (RiskLevel_eqb (level r0) High); [reflexivity|].
    apply find_all_false. intros s Hs.
    destruct (scores_come_from_customers cs rs s Hcs Hs) as (c' & Hin' & Hc').
    destruct (calculateRiskScore_inr _ _ _ Hc') as (Hid' & _). rewrite Hid'.
    destruct (String.eqb_spec (customerId c') (customerId c)) as [E|_];
      [|reflexivity].
    exfalso. apply Hnotin. rewrite <- E. apply in_map. exact Hin'.
  - destruct Hin as [<-|Hin]; [congruence|]. cbn [andb].
    apply (IH rs current eq_refl Hnd' Hin).
Qed.

(** X17.  For a customer of the rendered list (customer ids unique) the form
    shows the "High Risk Customer" warning exactly when the customer's level
    is High; and whenever a run of the handler for that customer raises the
    alert, the warning was on display. *)
Theorem highRiskWarning_iff_level_High :
  forall (customerData : list CustomerData) (scores : list RiskScore)
         (current : CustomerData),
    riskScores customerData = inr scores ->
    NoDup (map customerId customerData) ->
    In current customerData ->
    exists r,
      calculateRiskScore current DEFAULT_LOAN_PERIOD_MONTHS = inr r
      /\ (showsHighRiskWarning scores (Some current) = true <-> level r = High)
      /\ forall updateCustomerStatus values,
           alertCount
             (handleUpdateStatus updateCustomerStatus scores (Some current) values)
           = 1%nat ->
           showsHighRiskWarning scores (Some current) = true.
Proof.
  intros customerData scores current Hs Hnd Hin.
  destruct (find_high_risk customerData scores current Hs Hnd Hin)
    as (r & Hr & Hfind & Hhigh).
  exists r. split; [exact Hr|].
  assert (Hiff : showsHighRiskWarning scores (Some current) = true <-> level r = High).
  { unfold showsHighRiskWarning. rewrite Hhigh.
    destruct (level r); cbn; split; intros H; congruence. }
  split; [exact Hiff|].
  intros upd values Hcount. apply Hiff.
  cbn [handleUpdateStatus] in Hcount. rewrite Hfind in Hcount.
  destruct (upd (customerId current) (v_status values)) as [[|]|e];
    try discriminate Hcount.
  destruct (gt (score r) (ofZ 70)) eqn:Hgt.
  - apply (score_above_70_is_High _ _ _ Hr Hgt).
  - cbn in Hcount. discriminate Hcount.
Qed.

Lemma highRiskWarning_iff_level_High_witness :
  showsHighRiskWarning
    [ {| rs_customerId := "C-63"; score := ofZ 63; level := High;
         factors := {| f_creditScoreImpact := ofZ 40;
                       f_repaymentHistoryImpact := ofZ 15;
                       f_loanToIncomeRatioImpact := ofZ 8 |} |} ]
    (Some highAt63) = true.
Proof.
  destruct (highRiskWarning_iff_level_High [highAt63]
              [ {| rs_customerId := "C-63"; score := ofZ 63; level := High;
                   factors := {| f_creditScoreImpact := ofZ 40;
                                 f_repaymentHistoryImpact := ofZ 15;
                                 f_loanToIncomeRatioImpact := ofZ 8 |} |} ]
              highAt63)
    as (r & Hr & Hiff & _).
  - vm_compute. reflexivity.
  - repeat constructor; simpl; intuition discriminate.
  - left. reflexivity.
  - apply Hiff. vm_compute in Hr. injection Hr as <-. reflexivity.
Defined.

Lemma gt_orElse (s : num) (k : Z) :
  (0 <= k)%Z -> gt (orElse s (ofZ 0)) (ofZ k) = gt s (ofZ k).
Proof.
  intros Hk. unfold gt, orElse.
  destruct s as [q| | |]; try reflexivity.
  - destruct (Qeq_bool q 0) eqn:E; [|reflexivity].
    apply Qeq_bool_eq in E. cbn [lt ofZ].
    assert (H0 : inject_Z 0 <= inject_Z k) by (rewrite <- Zle_Qle; exact Hk).
    change (inject_Z 0) with 0 in H0.
    assert (E1 : qltb (inject_Z k) (inject_Z 0) = false)
      by (apply qltb_false; exact H0).
    assert (E2 : qltb (inject_Z k) q = false) by (apply qltb_false; lra).
    rewrite E1, E2. reflexivity.
  - cbn [lt ofZ]. apply qltb_false. rewrite <- Zle_Qle. exact Hk.
Qed.

(** X18.  The alert and the red progress bar go together: for a customer of
    the rendered list (customer ids unique) and an approval whose update
    succeeds, the handler raises the alert exactly when the customer's row
    shows the risk score with status "exception". *)
Theorem alert_iff_progress_exception :
  forall (customerData : list CustomerData) (scores : list RiskScore)
         (current : CustomerData) (values : FormValues)
         (updateCustomerStatus : string -> Status -> Settled),
    riskScores customerData = inr scores ->
    NoDup (map customerId customerData) ->
    In current customerData ->
    v_status values = Approved ->
    updateCustomerStatus (customerId current) Approved = Fulfilled true ->
    exists row,
      In row (customersWithRisk customerData scores)
      /\ row_customer row = current
      /\ (alertCount
            (handleUpdateStatus updateCustomerStatus scores (Some current) values)
          = 1%nat <->
          progressStatus (row_riskScore row) = "exception"%string).
Proof.
  intros customerData scores current values upd Hs Hnd Hin Hst Hupd.
  destruct (calculateAllRiskScores_find customerData scores current Hs Hnd Hin)
    as (r & Hr & Hfind).
  eexists. split; [apply in_map; exact Hin|]. split; [reflexivity|].
  cbn [row_riskScore handleUpdateStatus].
  unfold findCustomerRisk in Hfind. rewrite Hfind.
  fold (findCustomerRisk scores current). unfold findCustomerRisk. rewrite Hfind.
  rewrite Hst, Hupd. cbn [Status_eqb]. rewrite andb_true_r.
  unfold progressStatus. rewrite !gt_orElse by lia.
  set (g70 := gt (score r) (ofZ 70)). set (g40 := gt (score r) (ofZ 40)).
  destruct g70, g40; cbn; split; intros H;
    try reflexivity; discriminate H.
Qed.

Lemma alert_iff_progress_exception_witness :
  exists row,
    In row (customersWithRisk [highAt85]
              [ {| rs_customerId := "C-85"; score := ofZ 85; level := High;
                   factors := {| f_creditScoreImpact := ofZ 40;
                                 f_repaymentHistoryImpact := ofZ 15;
                                 f_loanToIncomeRatioImpact := ofZ 30 |} |} ])
    /\ row_customer row = highAt85
    /\ (alertCount
          (handleUpdateStatus updateSucceeds
             [ {| rs_customerId := "C-85"; score := ofZ 85; level := High;
                  factors := {| f_creditScoreImpact := ofZ 40;
                                f_repaymentHistoryImpact := ofZ 15;
                                f_loanToIncomeRatioImpact := ofZ 30 |} |} ]
             (Some highAt85) (mkFormValues Approved ""))
        = 1%nat <->
        progressStatus (row_riskScore row) = "exception"%string).
Proof.
  apply (alert_iff_progress_exception [highAt85]).
  - vm_compute. reflexivity.
  - repeat constructor; simpl; intuition discriminate.
  - left. reflexivity.
  - reflexivity.
  - reflexivity.
Defined.

(** ** [App]: the customer list after an update *)

(** X19.  When the server answers with a customer that carries the requested
    id, [App]'s handler returns [true] and the new list has the same ids in
    the same order: the customers with another id are kept as they are, every
    customer with the requested id is now the server's answer, and nothing
    else is in the list; when no customer has the requested id the list is
    unchanged (and [true] is still returned). *)
Theorem App_handleUpdateStatus_replaces_by_id :
  forall (api : string -> Status -> App.ApiResult)
         (customerData : list CustomerData) (id : string) (newStatus : Status)
         (updated : CustomerData),
    api id newStatus = App.Resolved updated ->
    customerId updated = id ->
    snd (App.handleUpdateStatus api customerData id newStatus) = true
    /\ map customerId (fst (App.handleUpdateStatus api customerData id newStatus)) =
       map customerId customerData
    /\ (forall c, In c customerData -> customerId c <> id ->
                  In c (fst (App.handleUpdateStatus api customerData id newStatus)))
    /\ (forall c, In c (fst (App.handleUpdateStatus api customerData id newStatus)) ->
                  customerId c = id -> c = updated)
    /\ (forall c, In c (fst (App.handleUpdateStatus api customerData id newStatus)) ->
                  c = updated \/ In c customerData)
    /\ (~ In id (map customerId customerData) ->
        fst (App.handleUpdateStatus api customerData id newStatus) = customerData).
Proof.
  intros api customerData id newStatus updated Hapi Hid.
  unfold App.handleUpdateStatus. rewrite Hapi. cbn [fst snd].
  split; [reflexivity|].
  induction customerData as [|x xs (IH1 & IH2 & IH3 & IH4 & IH5)]; cbn [map].
  - repeat split; auto; intros c [].
  - destruct (String.eqb_spec (customerId x) id) as [E|E].
    + split; [congruence|]. split.
      { intros c [<-|Hc] Hne; [contradiction|]. right. auto. }
      split.
      { intros c [<-|Hc] Hc'; [reflexivity|]. auto. }
      split.
      { intros c [<-|Hc]; [auto|]. destruct (IH4 c Hc); auto. right. right. assumption. }
      intros Hnot. exfalso. apply Hnot. left. exact E.
    + split; [congruence|]. split.
      { intros c [<-|Hc] Hne; [left; reflexivity|]. right. auto. }
      split.
      { intros c [<-|Hc] Hc'; [contradiction|]. auto. }
      split.
      { intros c [<-|Hc]; [right; left; reflexivity|].
        destruct (IH4 c Hc); auto. right. right. assumption. }
      intros Hnot. f_equal. apply IH5. intros H. apply Hnot. right. exact H.
Qed.

Lemma App_handleUpdateStatus_replaces_by_id_witness :
  map customerId
    (fst (App.handleUpdateStatus
            (fun _ newStatus => App.Resolved (App.setStatus highAt63 newStatus))
            [scenario; highAt63] "C-63" Approved)) =
  map customerId [scenario; highAt63].
Proof.
  apply (App_handleUpdateStatus_replaces_by_id
           (fun _ newStatus => App.Resolved (App.setStatus highAt63 newStatus))
           [scenario; highAt63] "C-63"%string Approved
           (App.setStatus highAt63 Approved)); reflexivity.
Defined.

Lemma calculateRiskScore_reads_five_fields (a b : CustomerData) (p : num) :
  customerId a = customerId b ->
  monthlyIncome a = monthlyIncome b ->
  outstandingLoans a = outstandingLoans b ->
  creditScore a = creditScore b ->
  loanRepaymentHistory a = loanRepaymentHistory b ->
  calculateRiskScore a p = calculateRiskScore b p.
Proof.
  intros Hid Hi Hl Hc Hh.
  unfold calculateRiskScore, totalScore, creditScoreImpact, normalizedCreditScore,
    repaymentHistoryImpact, repaymentHistoryLength, missedPayments,
    loanToIncomeRatioImpact, normalizedRatio, loanToIncomeRatio, monthlyLoanBurden.
  rewrite Hid, Hi, Hl, Hc, Hh. reflexivity.
Qed.

(** X20.  A status update does not move the risk scores: when the customer the
    server sends back agrees with every customer it replaces on the fields the
    scorer reads, scoring the new list gives what scoring the old list gave. *)
Theorem status_update_keeps_risk_scores :
  forall (api : string -> Status -> App.ApiResult)
         (customerData : list CustomerData) (id : string) (newStatus : Status)
         (updated : CustomerData),
    api id newStatus = App.Resolved updated ->
    (forall c, In c customerData -> customerId c = id -> sameScoringInputs c updated) ->
    calculateAllRiskScores (fst (App.handleUpdateStatus api customerData id newStatus)) =
    calculateAllRiskScores customerData.
Proof.
  intros api customerData id newStatus updated Hapi Hsame.
  unfold App.handleUpdateStatus. rewrite Hapi. cbn [fst].
  induction customerData as [|x xs IH]; [reflexivity|].
  cbn [map calculateAllRiskScores].
  rewrite IH by (intros c Hc; apply Hsame; right; exact Hc).
  destruct (String.eqb_spec (customerId x) id) as [E|E]; [|reflexivity].
  destruct (Hsame x (or_introl eq_refl) E) as (Hid & Hi & Hl & Hc & Hh).
  rewrite (calculateRiskScore_reads_five_fields x updated DEFAULT_LOAN_PERIOD_MONTHS
             Hid Hi Hl Hc Hh).
  reflexivity.
Qed.

Lemma status_update_keeps_risk_scores_witness :
  calculateAllRiskScores
    (fst (App.handleUpdateStatus
            (fun _ newStatus => App.Resolved (App.setStatus highAt63 newStatus))
            [scenario; highAt63] "C-63" Approved)) =
  calculateAllRiskScores [scenario; highAt63].
Proof.
  apply (status_update_keeps_risk_scores
           (fun _ newStatus => App.Resolved (App.setStatus highAt63 newStatus))
           [scenario; highAt63] "C-63"%string Approved
           (App.setStatus highAt63 Approved)).
  - reflexivity.
  - intros c [<-|[<-|[]]] Hid; [discriminate Hid|]. repeat split.
Defined.

(** ** The chart labels *)

Lemma firstWord_prefix (s : string) :
  exists rest, s = (Dashboard.firstWord s ++ rest)%string
               /\ (rest = EmptyString \/ exists rest', rest = String " " rest').
Proof.
  induction s as [|c s (rest & IH & Hrest)]; cbn [Dashboard.firstWord].
  - exists EmptyString. auto.
  - destruct (Ascii.eqb_spec c " "%char) as [->|Hc].
    + exists (String " " s). split; [reflexivity|]. right. eauto.
    + exists rest. cbn [append]. split; [f_equal; exact IH|exact Hrest].
Qed.

Lemma firstWord_no_space (s : string) :
  ~ In " "%char (list_ascii_of_string (Dashboard.firstWord s)).
Proof.
  induction s as [|c s IH]; cbn [Dashboard.firstWord]; [intros []|].
  destruct (Ascii.eqb_spec c " "%char) as [->|Hc]; [intros []|].
  cbn [list_ascii_of_string]. intros [E|H]; [congruence|auto].
Qed.

(** X21.  The income/expenses chart has one entry per customer, in order, with
    the customer's income and expenses; the entry's label is the customer's
    name up to its first space: it holds no space, and the name is the label,
    or the label followed by a space and a remainder. *)
Theorem incomeExpenseData_labels :
  forall customerData : list CustomerData,
    map Dashboard.income (Dashboard.incomeExpenseData customerData) =
      map monthlyIncome customerData
    /\ map Dashboard.expenses (Dashboard.incomeExpenseData customerData) =
       map monthlyExpenses customerData
    /\ Forall2
         (fun customer entry =>
            ~ In " "%char (list_ascii_of_string (Dashboard.ie_name entry))
            /\ exists rest,
                 name customer = (Dashboard.ie_name entry ++ rest)%string
                 /\ (rest = EmptyString \/ exists rest', rest = String " " rest'))
         customerData (Dashboard.incomeExpenseData customerData).
Proof.
  intros customerData. unfold Dashboard.incomeExpenseData.
  split; [rewrite map_map; reflexivity|]. split; [rewrite map_map; reflexivity|].
  induction customerData as [|c cs IH]; cbn [map]; constructor; [|exact IH].
  cbn [Dashboard.ie_name]. split; [apply firstWord_no_space|apply firstWord_prefix].
Qed.

(** ** A riskier profile never scores lower *)

Lemma riskLevel_mono (ta tb : num) :
  le ta tb = true ->
  (Dashboard.levels (riskLevel ta) <= Dashboard.levels (riskLevel tb))%Z.
Proof.
  intros Hle.
  pose proof (riskLevel_inv ta) as Ia. pose proof (riskLevel_inv tb) as Ib.
  destruct (riskLevel ta), (riskLevel tb); cbn; try lia; exfalso.
  - pose proof (le_lt_trans _ _ _ Hle Ib). destruct Ia as [Ia _].
    apply le_lt_false in Ia. congruence.
  - pose proof (le_lt_trans _ _ _ Hle Ib). destruct Ia as [_ Ia]. congruence.
  - destruct Ib as [_ Ib]. pose proof (le_lt_trans _ _ _ Hle Ib).
    destruct Ia as [Ia _]. congruence.
Qed.

Lemma add_mono_Fin (x x' y y' : Q) :
  x <= x' -> y <= y' -> le (add (Fin x) (Fin y)) (add (Fin x') (Fin y')) = true.
Proof. intros Hx Hy. cbn [add]. apply le_fin. lra. Qed.

(** X22.  Of two valid profiles with the same repayment history and loan
    period, the one with the lower (positive) income, the lower credit score
    and the higher outstanding loans never gets the lower total, the lower
    score or the lower level. *)
Theorem riskier_profile_never_scores_lower :
  forall (a b : CustomerData) (loanPeriodMonths : num),
    validProfile a loanPeriodMonths = true ->
    validProfile b loanPeriodMonths = true ->
    loanRepaymentHistory a = loanRepaymentHistory b ->
    lt (ofZ 0) (monthlyIncome b) = true ->
    le (monthlyIncome b) (monthlyIncome a) = true ->
    le (creditScore b) (creditScore a) = true ->
    le (outstandingLoans a) (outstandingLoans b) = true ->
    exists ra rb,
      calculateRiskScore a loanPeriodMonths = inr ra
      /\ calculateRiskScore b loanPeriodMonths = inr rb
      /\ le (totalScore a loanPeriodMonths) (totalScore b loanPeriodMonths) = true
      /\ le (score ra) (score rb) = true
      /\ (Dashboard.levels (level ra) <= Dashboard.levels (level rb))%Z.
Proof.
  intros a b p Hva Hvb Hh Hpos Hinc Hcs Hloans.
  destruct (validProfile_Fin _ _ Hva)
    as (qa & ia & la & m & Hqa & Hia & Hla & Hm & _ & _ & _ & Hla0 & Hm0).
  destruct (validProfile_Fin _ _ Hvb)
    as (qb & ib & lb & m' & Hqb & Hib & Hlb & Hm' & _).
  assert (m' = m) by congruence. subst m'.
  rewrite Hib in Hpos. apply lt_Fin in Hpos. change (inject_Z 0) with 0 in Hpos.
  rewrite Hia, Hib in Hinc. apply le_Fin in Hinc.
  rewrite Hqa, Hqb in Hcs. apply le_Fin in Hcs.
  rewrite Hla, Hlb in Hloans. apply le_Fin in Hloans.
  (* the credit component *)
  assert (Hc : exists x x', creditScoreImpact a = Fin x
                            /\ creditScoreImpact b = Fin x' /\ x <= x').
  { unfold creditScoreImpact, normalizedCreditScore, CREDIT_SCORE_WEIGHT.
    rewrite Hqa, Hqb.
    change (sub maxCreditScore minCreditScore) with (Fin 550).
    cbn [sub maxCreditScore ofZ]. unfold fin.
    rewrite !div_Fin_nonzero by (intro H; discriminate H). unfold fin.
    destruct (clamp_mono (Qred (Qred (inject_Z 850 - qa) / 550))
                         (Qred (Qred (inject_Z 850 - qb) / 550)))
      as (u & v & -> & -> & Huv).
    - rewrite !Qred_correct. apply Qdiv_le_compat_r; lra.
    - cbn [mul ofZ]. unfold fin. eexists. eexists.
      split; [reflexivity|]. split; [reflexivity|].
      rewrite !Qred_correct. apply Qmult_le_compat_r; [exact Huv|].
      discriminate. }
  (* the repayment component *)
  assert (Hr : exists y, repaymentHistoryImpact a = Fin y
                         /\ repaymentHistoryImpact b = Fin y).
  { pose proof (repaymentHistoryImpact_between a) as B. apply between_Fin in B.
    destruct B as (y & Ey & _). exists y. split; [exact Ey|].
    rewrite <- Ey. unfold repaymentHistoryImpact, repaymentHistoryLength, missedPayments.
    rewrite Hh. reflexivity. }
  (* the loan component *)
  assert (Hl : exists z z', loanToIncomeRatioImpact a p = Fin z
                            /\ loanToIncomeRatioImpact b p = Fin z' /\ z <= z').
  { destruct (loanToIncomeRatioImpact_Fin a p la m ia Hla Hm Hia Hm0)
      as (za & Hza & ->); [lra|].
    destruct (loanToIncomeRatioImpact_Fin b p lb m ib Hlb Hm Hib Hm0 Hpos)
      as (zb & Hzb & ->).
    assert (Hz : za <= zb).
    { rewrite Hza, Hzb. apply Qdiv_le_compat_r; [lra|].
      apply Qle_trans with (la / m / ib).
      - apply Qdiv_le_antitone; [|lra|lra]. apply Qdiv_nonneg; lra.
      - apply Qdiv_le_compat_r; [lra|]. apply Qdiv_le_compat_r; lra. }
    pose proof (Math_min_1_mono za zb Hz) as Hmin.
    rewrite !Math_min_1_Fin in *. apply le_Fin in Hmin.
    cbn [mul ofZ]. unfold fin. eexists. eexists.
    split; [reflexivity|]. split; [reflexivity|].
    rewrite !Qred_correct. apply Qmult_le_compat_r; [exact Hmin|]. discriminate. }
  destruct Hc as (x & x' & Ex & Ex' & Hx). destruct Hr as (y & Ey & Ey').
  destruct Hl as (z & z' & Ez & Ez' & Hz).
  assert (Ht : le (totalScore a p) (totalScore b p) = true).
  { unfold totalScore. rewrite Ex, Ex', Ey, Ey', Ez, Ez'.
    cbn [add]. unfold fin. apply le_Fin. rewrite !Qred_correct. lra. }
  destruct (validProfile_returns _ _ Hva) as [ra Hra].
  destruct (validProfile_returns _ _ Hvb) as [rb Hrb].
  exists ra, rb. split; [exact Hra|]. split; [exact Hrb|]. split; [exact Ht|].
  destruct (calculateRiskScore_inr _ _ _ Hra) as (_ & -> & -> & _).
  destruct (calculateRiskScore_inr _ _ _ Hrb) as (_ & -> & -> & _).
  split; [apply round_mono; exact Ht|apply riskLevel_mono; exact Ht].
Qed.

Lemma riskier_profile_never_scores_lower_witness :
  le (totalScore (profile "A" 4000 700 24000 []) DEFAULT_LOAN_PERIOD_MONTHS)
     (totalScore (profile "B" 3000 620 36000 []) DEFAULT_LOAN_PERIOD_MONTHS) = true.
Proof.
  destruct (riskier_profile_never_scores_lower
              (profile "A" 4000 700 24000 []) (profile "B" 3000 620 36000 [])
              DEFAULT_LOAN_PERIOD_MONTHS
              eq_refl eq_refl eq_refl eq_refl eq_refl eq_refl eq_refl)
    as (ra & rb & _ & _ & H & _).
  exact H.
Defined.
